(** * multipatch_convertor: ESRI Multipatch features to flat polygons with a height

    A shallow embedding of [src/multipatch_convertor.py] and the proofs of its
    specification.

    Numbers.  The coordinates come out of [json.loads] as floats, and Python
    compares and hashes [int] and [float] by numeric value, so a number is
    modelled by its value, a canonical rational [Qc] (every finite float is
    one): [==], [<], [min], [max], [set] and the [dict] keys behave on [Qc]
    as they do on the Python values.  [-] and [*] are the operations of
    floats: the exact result rounded to the nearest binary64 value, ties to
    even ([binary64]); the literal [0.3048] is the float nearest to
    3048/10000.  A result beyond the largest finite float, which Python
    makes [inf], is outside the model.

    The library.  geopandas is no part of the repository.  Its constructor,
    [to_crs] and [to_file] are a parameter of the model, a [Library], each
    free to return or to raise: what is proved holds of every library.

    Effects.  The function prints, calls [to_file] and raises; these are kept
    in a small state-and-exception monad [Py] over a [World] that records the
    standard output and the calls of [to_file]. *)

From stdpp Require Import gmap strings list.
From Stdlib Require Import QArith Qcanon.

Abbreviation num := Qc.

(** ** The GeoJSON structure read from [geodataframe.to_json()] *)

(** A position [c] of a ring: [c[0]], [c[1]], [c[2]]. *)
Record Coordinate := { cx : num; cy : num; cz : num }.

Abbreviation Ring := (list Coordinate).

(** One member of [feature['geometry']['coordinates']]: a polygon is a list
    of rings with its outer ring first; the code reads [multipatch_polygon[0]]
    only. *)
Record MultipatchPolygon := { ring0 : Ring; inner_rings : list Ring }.

(** The key of the [building_parts] dictionary: the tuple of (x, y) pairs. *)
Abbreviation XY := (list (num * num)).

(** Values of a property mapping and of an output row. *)
Inductive Value :=
  | VNull
  | VBool (b : bool)
  | VNum (n : num)
  | VStr (s : string)
  | VPolygon (shell : XY).

Abbreviation Row := (gmap string Value).

Record Feature := {
  properties : gmap string Value;
  geometry : list MultipatchPolygon
}.

Inductive CRS :=
  | NoCRS
  | Epsg (code : N)
  | Proj4 (definition : string).

(** The input frame as the function observes it: [geodataframe.crs] and the
    features of [json.loads(geodataframe.to_json())]. *)
Record InputFrame := { gdf_crs : CRS; gdf_features : list Feature }.

(** [gpd.GeoDataFrame(feature_list, index=..., crs=crs)]. *)
Record GeoDataFrame := { rows : list Row; index : list nat; crs : CRS }.

Global Instance Coordinate_eq_dec : EqDecision Coordinate.
Proof. solve_decision. Defined.
Global Instance Value_eq_dec : EqDecision Value.
Proof. solve_decision. Defined.
Global Instance CRS_eq_dec : EqDecision CRS.
Proof. solve_decision. Defined.

(** ** An insertion-ordered dictionary, as Python's [dict]

    [building_parts.items()] yields the entries in the order in which their
    keys were first inserted; the list of pairs keeps that order. *)

Module OrderedDict.
Section ordered_dict.
Context {K V : Type} `{EqDecision K}.

Fixpoint get (k : K) (d : list (K * V)) : option V :=
  match d with
  | [] => None
  | (k', v) :: d' => if decide (k = k') then Some v else get k d'
  end.

(** [k in d] *)
Definition mem (k : K) (d : list (K * V)) : bool :=
  match get k d with Some _ => true | None => false end.

(** [d[k] = v]: the value of an existing key is replaced where it stands, a
    new key goes to the end. *)
Fixpoint set (k : K) (v : V) (d : list (K * V)) : list (K * V) :=
  match d with
  | [] => [(k, v)]
  | (k', v') :: d' =>
      if decide (k = k') then (k', v) :: d' else (k', v') :: set k v d'
  end.

(** In-place mutation of the value stored under [k], as [d[k].append(z)]. *)
Fixpoint mutate (f : V → V) (k : K) (d : list (K * V)) : list (K * V) :=
  match d with
  | [] => []
  | (k', v') :: d' =>
      if decide (k = k') then (k', f v') :: d' else (k', v') :: mutate f k d'
  end.

(** [d.items()] *)
Definition items (d : list (K * V)) : list (K * V) := d.

Definition keys (d : list (K * V)) : list K := d.*1.

End ordered_dict.
End OrderedDict.

(** ** Python built-ins on numbers *)

(** [min(a, b)]: the first argument unless the second is strictly smaller. *)
Definition py_min (a b : num) : num := if decide (b < a)%Qc then b else a.

(** [max(l)]: the first greatest element; [ValueError] ([None]) on []. *)
Definition py_max (l : list num) : option num :=
  match l with
  | [] => None
  | z :: l' => Some (fold_left (λ m x, if decide (m < x)%Qc then x else m) l' z)
  end.

(** ** The arithmetic of floats

    [binary64 q] is the float nearest to the rational [q], ties to even: 53
    bits of precision, the least exponent -1074 (gradual underflow). *)

(** The integer nearest to [N / D], ties to even, for [0 ≤ N] and [0 < D]. *)
Definition round_half_even (N D : Z) : Z :=
  let f := (N / D)%Z in
  match (2 * (N mod D) ?= D)%Z with
  | Lt => f
  | Gt => (f + 1)%Z
  | Eq => if Z.even f then f else (f + 1)%Z
  end.

(** The integer part of the binary logarithm of [n / d]. *)
Definition magnitude (n d : positive) : Z :=
  let e := (Z.log2 (Z.pos n) - Z.log2 (Z.pos d))%Z in
  if (if (0 <=? e)%Z then (Z.pos d * 2 ^ e <=? Z.pos n)%Z
      else (Z.pos d <=? Z.pos n * 2 ^ (- e))%Z)
  then e else (e - 1)%Z.

(** [n / d] rounded to a multiple of the unit in the last place, [2 ^ e]. *)
Definition binary64_pos (n d : positive) : Q :=
  let e := Z.max (magnitude n d - 52) (-1074) in
  if (0 <=? e)%Z
  then inject_Z (round_half_even (Z.pos n) (Z.pos d * 2 ^ e) * 2 ^ e)
  else round_half_even (Z.pos n * 2 ^ (- e)) (Z.pos d) # Z.to_pos (2 ^ (- e)).

Definition binary64 (q : num) : num :=
  match Qnum q with
  | Z0 => Q2Qc 0
  | Z.pos n => Q2Qc (binary64_pos n (Qden q))
  | Z.neg n => (- Q2Qc (binary64_pos n (Qden q)))%Qc
  end.

(** The value of a float literal written as the decimal [q]. *)
Definition py_float (q : num) : num := binary64 q.

(** [a - b] and [a * b] on floats. *)
Definition py_sub (a b : num) : num := binary64 (a - b)%Qc.
Definition py_mul (a b : num) : num := binary64 (a * b)%Qc.

(** ** Lines 54-79: the scan of the rings of one feature *)

Record ScanState := {
  min_h : num;
  building_parts : list (XY * list num)
}.

(** [len(ring) > 3 and len(set([c[2] for c in ring])) == 1] *)
Definition horizontal_face (ring : Ring) : bool :=
  bool_decide (3 < length ring)%nat
  && bool_decide (size (list_to_set (cz <$> ring) : gset num) = 1%nat).

(** [tuple((c[0],c[1]) for c in ring)] *)
Definition xy_of (ring : Ring) : XY := (λ c, (cx c, cy c)) <$> ring.

(** The sentinel of lines 54-57. *)
Definition initial_min_h (z_unit_in : string) : num :=
  if (z_unit_in =? "m")%string then Qc_of_Z 9000 else Qc_of_Z 30000.

(** The body of the loop of line 71.  [ring[0][2]] is read under the guard
    [len(ring) > 3], so the ring has a first position. *)
Definition scan_polygon (st : ScanState) (multipatch_polygon : MultipatchPolygon)
  : ScanState :=
  let ring := ring0 multipatch_polygon in
  if horizontal_face ring then
    match ring with
    | c0 :: _ =>
        let z_coordinate := cz c0 in
        let xy_coordinates := xy_of ring in
        {| min_h := py_min (min_h st) z_coordinate;
           building_parts :=
             if OrderedDict.mem xy_coordinates (building_parts st)
             then OrderedDict.mutate (λ zs, zs ++ [z_coordinate])
                    xy_coordinates (building_parts st)
             else OrderedDict.set xy_coordinates [z_coordinate]
                    (building_parts st) |}
    | [] => st
    end
  else st.

Definition scan_rings (z_unit_in : string) (polygons : list MultipatchPolygon)
  : ScanState :=
  fold_left scan_polygon polygons
    {| min_h := initial_min_h z_unit_in; building_parts := [] |}.

(** ** The monad of effects *)

Inductive Exn :=
  | NameError (msg : string)
  | ValueError (msg : string)
  | KeyError (key : string)
  | TypeError (msg : string)
  | OtherError (class msg : string).

(** A call [frame.to_file(name, driver=driver)]. *)
Record ToFileCall := {
  call_frame : GeoDataFrame;
  call_name : string;
  call_driver : string
}.

Record World := { stdout : list string; to_file_calls : list ToFileCall }.

Inductive Outcome (A : Type) :=
  | Returned (a : A)
  | Raised (e : Exn).
Global Arguments Returned {A} a.
Global Arguments Raised {A} e.

Definition Py (A : Type) : Type := World → Outcome A * World.

Global Instance Py_ret : MRet Py := λ A a w, (Returned a, w).
Global Instance Py_bind : MBind Py := λ A B k m w,
  match m w with
  | (Returned a, w') => k a w'
  | (Raised e, w') => (Raised e, w')
  end.

Definition py_raise {A} (e : Exn) : Py A := λ w, (Raised e, w).

Definition py_print (msg : string) : Py () :=
  λ w, (Returned (),
        {| stdout := stdout w ++ [msg]; to_file_calls := to_file_calls w |}).

(** A call of the library, which returns or raises and leaves the world. *)
Definition py_call {A} (outcome : Outcome A) : Py A := λ w, (outcome, w).

(** geopandas, as far as the function calls it: the constructor
    [gpd.GeoDataFrame(rows, index=index, crs=crs)], [frame.to_crs(target,
    inplace=True)] with the frame it leaves, and what
    [frame.to_file(name, driver=driver)] returns or raises. *)
Record Library := {
  new_frame : list Row → list nat → CRS → Outcome GeoDataFrame;
  to_crs : CRS → GeoDataFrame → Outcome GeoDataFrame;
  write_file : GeoDataFrame → string → string → Outcome ()
}.

(** [frame.to_file(name, driver=driver)]: the call is recorded, and returns
    or raises as the library does. *)
Definition to_file (lib : Library) (frame : GeoDataFrame)
    (name driver : string) : Py () :=
  λ w, (write_file lib frame name driver,
        {| stdout := stdout w;
           to_file_calls :=
             to_file_calls w ++ [{| call_frame := frame; call_name := name;
                                    call_driver := driver |}] |}).

(** [for x in xs: s = body(s, x)] *)
Fixpoint py_for {A S} (xs : list A) (body : S → A → Py S) (s : S) : Py S :=
  match xs with
  | [] => mret s
  | x :: xs' => s' ← body s x; py_for xs' body s'
  end.

(** [for f in fs: f[...] = ...], each element updated where it stands. *)
Fixpoint py_for_update {A} (fs : list A) (body : A → Py A) : Py (list A) :=
  match fs with
  | [] => mret []
  | f :: fs' => f' ← body f; fs'' ← py_for_update fs' body; mret (f' :: fs'')
  end.

(** ** Lines 49-116: one input feature *)

(** [f['height'] = op(f['height'])] *)
Definition update_height (op : num → num) (f : Row) : Py Row :=
  match f !! "height" with
  | Some (VNum h) => mret (<["height" := VNum (op h)]> f)
  | Some _ => py_raise (TypeError "unsupported operand type(s)")
  | None => py_raise (KeyError "height")
  end.

(** The literal [0.3048]. *)
Definition FT_TO_M : num := py_float (Q2Qc (3048 # 10000)).

Definition wrong_units_message : string :=
  "Wrong height units given! Please, choose either ‘m’ for meters or ‘ft’ for feet".

Definition wrong_format_message : string :=
  "Wrong output file format given! Please, choose either ‘geojson’ or ‘shp’".

(** Lines 85-98, the body of the loop: one new feature per entry of
    [building_parts]. *)
Definition emit_part (properties : gmap string Value)
    (splitted_feature_list : list Row) (item : XY * list num) : Py (list Row) :=
  let '(xy_coords, z_coords) := item in
  let new_feature := properties in
  match py_max z_coords with
  | None => py_raise (ValueError "max() arg is an empty sequence")
  | Some height =>
      let new_feature := <["height" := VNum height]> new_feature in
      let new_feature := <["geometry" := VPolygon xy_coords]> new_feature in
      mret (splitted_feature_list ++ [new_feature])
  end.

(** Lines 81-98. *)
Definition emit_parts (properties : gmap string Value)
    (building_parts : list (XY * list num)) : Py (list Row) :=
  py_for (OrderedDict.items building_parts) (emit_part properties) [].

(** Lines 100-103. *)
Definition adjust_relative (relative_h : bool) (min_h : num)
    (splitted_feature_list : list Row) : Py (list Row) :=
  if relative_h
  then py_for_update splitted_feature_list
         (update_height (λ h, py_sub h min_h))
  else mret splitted_feature_list.

(** Lines 105-113. *)
Definition convert_units (z_unit_in : string)
    (splitted_feature_list : list Row) : Py (list Row) :=
  if (z_unit_in =? "ft")%string then
    py_for_update splitted_feature_list
      (update_height (λ h, py_mul h FT_TO_M))
  else if (z_unit_in =? "m")%string then
    mret splitted_feature_list
  else
    (py_raise (NameError "wrongUnits") : Py ());;
    py_print wrong_units_message;;
    mret splitted_feature_list.

(** Lines 51-103: the new features of one feature before the conversion of
    units. *)
Definition relative_features (z_unit_in : string) (relative_h : bool)
    (feature : Feature) : Py (list Row) :=
  let properties := properties feature in
  let st := scan_rings z_unit_in (geometry feature) in
  splitted_feature_list ← emit_parts properties (building_parts st);
  adjust_relative relative_h (min_h st) splitted_feature_list.

(** Lines 51-113: the body of the loop over the features. *)
Definition split_feature (z_unit_in : string) (relative_h : bool)
    (feature : Feature) : Py (list Row) :=
  splitted_feature_list ← relative_features z_unit_in relative_h feature;
  convert_units z_unit_in splitted_feature_list.

(** ** Lines 39-139: the conversion *)

Definition WGS84 : CRS := Epsg 4326.

(** Lines 45-116: the loop over the features. *)
Definition convert_features (z_unit_in : string) (relative_h : bool)
    (features : list Feature) : Py (list Row) :=
  py_for features (λ feature_list feature,
    splitted_feature_list ← split_feature z_unit_in relative_h feature;
    mret (feature_list ++ splitted_feature_list)) [].

(** Lines 118-139: the frame of the new features, built, taken to WGS 84,
    and saved or returned. *)
Definition save_or_return (lib : Library) (crs : CRS)
    (feature_list : list Row) (save : bool)
    (path filename out_format : string) : Py (option GeoDataFrame) :=
  new_gdf_gj ←
    py_call (new_frame lib feature_list (seq 0 (length feature_list)) crs);
  new_gdf_gj ← py_call (to_crs lib WGS84 new_gdf_gj);
  if save then
    if (out_format =? "geojson")%string then
      to_file lib new_gdf_gj (path +:+ filename +:+ ".geojson") "GeoJSON";;
      mret None
    else if (out_format =? "shp")%string then
      to_file lib new_gdf_gj (path +:+ filename +:+ ".shp") "ESRI Shapefile";;
      mret None
    else
      (py_raise (NameError "wrongFormat") : Py ());;
      py_print wrong_format_message;;
      mret None
  else
    mret (Some new_gdf_gj).

Definition multipatch_convertor (lib : Library) (geodataframe : InputFrame)
    (z_unit_in : string) (relative_h save : bool)
    (path filename out_format : string) : Py (option GeoDataFrame) :=
  let crs := gdf_crs geodataframe in
  let gdf_gj := gdf_features geodataframe in
  feature_list ← convert_features z_unit_in relative_h gdf_gj;
  save_or_return lib crs feature_list save path filename out_format.

(** The world before a call: nothing printed, no call of [to_file]. *)
Definition world0 : World := {| stdout := []; to_file_calls := [] |}.

(** ** Vocabulary of the statements *)

(** [ring[0][2]], the Z the scan records for a ring it keeps. *)
Definition ring_z (ring : Ring) : option num := cz <$> head ring.

(** The Z a polygon contributes to the group of key [k]. *)
Definition kept_z (k : XY) (mp : MultipatchPolygon) : option num :=
  if horizontal_face (ring0 mp) && bool_decide (xy_of (ring0 mp) = k)
  then ring_z (ring0 mp) else None.

(** The Z a polygon contributes to the running minimum. *)
Definition face_z (mp : MultipatchPolygon) : option num :=
  if horizontal_face (ring0 mp) then ring_z (ring0 mp) else None.

(** The new feature of lines 88-95. *)
Definition new_row (properties : gmap string Value) (k : XY) (h : num) : Row :=
  <["geometry" := VPolygon k]> (<["height" := VNum h]> properties).

Definition max_of (zs : list num) : num := default (Qc_of_Z 0) (py_max zs).

(** The geometry of a feature without the rings the scan skips. *)
Definition horizontal_only (feature : Feature) : Feature :=
  {| properties := properties feature;
     geometry := filter (λ mp, horizontal_face (ring0 mp)) (geometry feature) |}.

Definition valid_units (z_unit_in : string) : Prop :=
  z_unit_in = "m" ∨ z_unit_in = "ft".

Definition valid_format (out_format : string) : Prop :=
  out_format = "geojson" ∨ out_format = "shp".

(** The factor the conversion of units applies to a height. *)
Definition unit_factor (z_unit_in : string) (h : num) : num :=
  if (z_unit_in =? "ft")%string then py_mul h FT_TO_M else h.

Definition relative_to (relative_h : bool) (floor h : num) : num :=
  if relative_h then py_sub h floor else h.

(** The rows lines 85-113 build from the dictionary of the scan, [op] being
    what the later loops do to the height. *)
Definition part_rows (op : num → num) (properties : gmap string Value)
    (building_parts : list (XY * list num)) : list Row :=
  (λ item : XY * list num, new_row properties item.1 (op (max_of item.2)))
  <$> building_parts.

Definition feature_rows (z_unit_in : string) (relative_h : bool)
    (feature : Feature) : list Row :=
  let st := scan_rings z_unit_in (geometry feature) in
  part_rows (λ h, unit_factor z_unit_in (relative_to relative_h (min_h st) h))
    (properties feature) (building_parts st).

(** The calls whose loop over the features ends without the error of line
    112: the units are valid, or there is no feature to run the check on. *)
Definition units_pass (z_unit_in : string) (geodataframe : InputFrame) : Prop :=
  valid_units z_unit_in ∨ gdf_features geodataframe = [].

(** [feature_list] after the loop of line 49. *)
Definition all_rows (z_unit_in : string) (relative_h : bool)
    (geodataframe : InputFrame) : list Row :=
  concat (feature_rows z_unit_in relative_h <$> gdf_features geodataframe).

(** [r1] is [r0] after [r0['height'] = op(r0['height'])]. *)
Definition height_changed (op : num → num) (r0 r1 : Row) : Prop :=
  ∃ h, r0 !! "height" = Some (VNum h) ∧ r1 = <["height" := VNum (op h)]> r0.

(** ** The inputs of the examples *)

Definition position (x y z : Z) : Coordinate :=
  {| cx := Qc_of_Z x; cy := Qc_of_Z y; cz := Qc_of_Z z |}.

(** The ring of footprint [k] at the constant height [z]. *)
Definition flat_ring (k : XY) (z : num) : Ring :=
  (λ p : num * num, {| cx := p.1; cy := p.2; cz := z |}) <$> k.

Definition polygon_of (ring : Ring) : MultipatchPolygon :=
  {| ring0 := ring; inner_rings := [] |}.

Definition triangle_a : XY :=
  [(Qc_of_Z 0, Qc_of_Z 0); (Qc_of_Z 4, Qc_of_Z 0); (Qc_of_Z 0, Qc_of_Z 3);
   (Qc_of_Z 0, Qc_of_Z 0)].

Definition triangle_b : XY :=
  [(Qc_of_Z 10, Qc_of_Z 0); (Qc_of_Z 14, Qc_of_Z 0); (Qc_of_Z 10, Qc_of_Z 3);
   (Qc_of_Z 10, Qc_of_Z 0)].

(** A vertical face over the first edge of [triangle_a]. *)
Definition wall_ring : Ring :=
  [position 0 0 0; position 4 0 0; position 4 0 10; position 0 0 10;
   position 0 0 0].

(** A top ring at Z=10, the bottom ring of the same footprint at Z=0, and a
    wall. *)
Definition top_bottom_wall (properties : gmap string Value) : Feature :=
  {| properties := properties;
     geometry := [polygon_of (flat_ring triangle_a (Qc_of_Z 10));
                  polygon_of (flat_ring triangle_a (Qc_of_Z 0));
                  polygon_of wall_ring] |}.

(** One horizontal ring of footprint [triangle_a] at the height [z]. *)
Definition single_ring (properties : gmap string Value) (z : num) : Feature :=
  {| properties := properties;
     geometry := [polygon_of (flat_ring triangle_a z)] |}.

(** Two building parts: footprint [triangle_a] from Z=5 to Z=10 and footprint
    [triangle_b] from Z=5 to Z=15. *)
Definition two_parts (properties : gmap string Value) : Feature :=
  {| properties := properties;
     geometry := [polygon_of (flat_ring triangle_a (Qc_of_Z 5));
                  polygon_of (flat_ring triangle_a (Qc_of_Z 10));
                  polygon_of (flat_ring triangle_b (Qc_of_Z 5));
                  polygon_of (flat_ring triangle_b (Qc_of_Z 15))] |}.

(** A frame in the New York state plane system (EPSG:2263). *)
Definition state_plane_frame (features : list Feature) : InputFrame :=
  {| gdf_crs := Epsg 2263; gdf_features := features |}.

(** A frame in WGS 84 (EPSG:4326), and a frame without reference system. *)
Definition wgs84_frame (features : list Feature) : InputFrame :=
  {| gdf_crs := Epsg 4326; gdf_features := features |}.

Definition naive_frame (features : list Feature) : InputFrame :=
  {| gdf_crs := NoCRS; gdf_features := features |}.

(** A library to run the examples with, in the place of geopandas.  It
    raises on an empty list of rows and, as [to_crs] of geopandas does with
    ValueError, on a frame without reference system; it takes a frame to the
    system it is in already by leaving it as it is, and knows no other
    projection; its [to_file] returns. *)
Definition stand_in : Library :=
  {| new_frame rows index crs :=
       match rows with
       | [] => Raised (ValueError "no geometry column")
       | _ => Returned {| rows := rows; index := index; crs := crs |}
       end;
     to_crs target frame :=
       match crs frame with
       | NoCRS => Raised (ValueError "Cannot transform naive geometries")
       | source =>
           if decide (source = target) then Returned frame
           else Raised (OtherError "NotImplementedError" "projection")
       end;
     write_file _ _ _ := Returned () |}.

(** [None] when [to_file] has returned, and what it raised otherwise. *)
Definition none_when_written (written : Outcome ()) : Outcome (option GeoDataFrame) :=
  match written with
  | Returned _ => Returned None
  | Raised e => Raised e
  end.

(** The world after one more call of [to_file]. *)
Definition with_call (w : World) (frame : GeoDataFrame)
    (name driver : string) : World :=
  {| stdout := stdout w;
     to_file_calls :=
       to_file_calls w ++ [{| call_frame := frame; call_name := name;
                              call_driver := driver |}] |}.

(** [min_h] when the scan of a feature ends (line 79). *)
Definition running_min (z_unit_in : string) (feature : Feature) : num :=
  min_h (scan_rings z_unit_in (geometry feature)).

(** ** Vocabulary of the further properties *)

(** The elements of a list in the order of their first occurrence. *)
Fixpoint first_occurrences (l : list XY) : list XY :=
  match l with
  | [] => []
  | k :: l' => k :: filter (λ k', k' ≠ k) (first_occurrences l')
  end.

(** The footprints of the rings the scan keeps, in the order of the rings. *)
Definition kept_footprints (polygons : list MultipatchPolygon) : list XY :=
  (λ mp, xy_of (ring0 mp))
  <$> filter (λ mp, horizontal_face (ring0 mp)) polygons.

(** The column of an output: the value each row holds under [key]. *)
Definition column (key : string) (rows : list Row) : list (option Value) :=
  (λ row : Row, row !! key) <$> rows.

(** A feature with the first ring of each of its polygons and no other. *)
Definition outer_rings_only (feature : Feature) : Feature :=
  {| properties := properties feature;
     geometry := (λ mp, polygon_of (ring0 mp)) <$> geometry feature |}.

(** A feature whose only ring is a wall. *)
Definition wall_only (properties : gmap string Value) : Feature :=
  {| properties := properties; geometry := [polygon_of wall_ring] |}.

(** The rings of [top_bottom_wall] in another order. *)
Definition wall_bottom_top (properties : gmap string Value) : Feature :=
  {| properties := properties;
     geometry := [polygon_of wall_ring;
                  polygon_of (flat_ring triangle_a (Qc_of_Z 0));
                  polygon_of (flat_ring triangle_a (Qc_of_Z 10))] |}.

(** * Proofs *)

(** ** The ordered dictionary *)

Module OrderedDictFacts.
Import OrderedDict.
Section facts.
Context {K V : Type} `{EqDecision K}.
Implicit Types (k : K) (v : V) (d : list (K * V)).

Lemma mem_get k d : mem k d = bool_decide (is_Some (get k d)).
Proof.
  unfold mem. destruct (get k d) as [v|]; symmetry.
  - apply bool_decide_eq_true. eauto.
  - apply bool_decide_eq_false. intros [? ?]. discriminate.
Qed.

Lemma get_set k v d k' :
  get k' (set k v d) = if decide (k' = k) then Some v else get k' d.
Proof.
  induction d as [|[k0 v0] d IH]; simpl; [done|].
  destruct (decide (k = k0)) as [->|Hk]; simpl.
  - by destruct (decide (k' = k0)).
  - rewrite IH. destruct (decide (k' = k0)) as [->|]; [|done].
    by rewrite decide_False by done.
Qed.

Lemma get_mutate (f : V → V) k d k' :
  get k' (mutate f k d) = if decide (k' = k) then f <$> get k d else get k' d.
Proof.
  induction d as [|[k0 v0] d IH]; simpl; [by case_decide|].
  destruct (decide (k = k0)) as [->|Hk]; simpl.
  - by destruct (decide (k' = k0)).
  - rewrite IH. destruct (decide (k' = k0)) as [->|]; [|done].
    by rewrite decide_False by done.
Qed.

Lemma get_None k d : get k d = None ↔ k ∉ keys d.
Proof.
  unfold keys. induction d as [|[k0 v0] d IH]; csimpl.
  - split; [intros _; apply not_elem_of_nil | done].
  - rewrite not_elem_of_cons. destruct (decide (k = k0)) as [->|Hk].
    + split; [done | by intros []].
    + rewrite IH. tauto.
Qed.

Lemma keys_mutate (f : V → V) k d : keys (mutate f k d) = keys d.
Proof.
  unfold keys. induction d as [|[k0 v0] d IH]; csimpl; [done|].
  case_decide; csimpl; [done | by rewrite IH].
Qed.

Lemma keys_set_fresh k v d : get k d = None → keys (set k v d) = keys d ++ [k].
Proof.
  unfold keys. induction d as [|[k0 v0] d IH]; csimpl; [done|].
  case_decide; [done|]. intros Hg. csimpl. by rewrite IH.
Qed.

Lemma elem_of_get k v d : NoDup (keys d) → (k, v) ∈ d ↔ get k d = Some v.
Proof.
  unfold keys. induction d as [|[k0 v0] d IH]; csimpl; intros Hnd.
  - split; [intros Hin; inversion Hin | done].
  - apply NoDup_cons in Hnd as [Hk0 Hnd]. rewrite elem_of_cons, (IH Hnd).
    destruct (decide (k = k0)) as [->|Hk].
    + split.
      * intros [[= ->] | Hg]; [done|].
        exfalso. apply Hk0. apply dec_stable. intros Hn.
        apply get_None in Hn. congruence.
      * intros [= ->]. by left.
    + split; [intros [[= -> ->] | Hg]; done | by right].
Qed.

End facts.
End OrderedDictFacts.

(** ** The test of line 72 *)

Lemma size_list_to_set_1 (l : list num) :
  size (list_to_set l : gset num) = 1%nat ↔ l ≠ [] ∧ ∃ z, ∀ x, x ∈ l → x = z.
Proof.
  split.
  - intros Hs. split.
    + intros ->. change (size (∅ : gset num) = 1%nat) in Hs.
      by rewrite size_empty in Hs.
    + apply size_1_elem_of in Hs as [z Hz]. exists z. intros x Hx.
      assert (x ∈ (list_to_set l : gset num)) as Hx' by by apply elem_of_list_to_set.
      rewrite Hz in Hx'. by apply elem_of_singleton in Hx'.
  - intros [Hne [z Hz]].
    assert ((list_to_set l : gset num) = {[z]}) as ->; [|apply size_singleton].
    apply set_eq. intros x. rewrite elem_of_list_to_set, elem_of_singleton.
    split; [by apply Hz|]. intros ->.
    destruct l as [|y l]; [done|]. rewrite (Hz y) at 1; [left|left].
Qed.

Lemma horizontal_face_spec (ring : Ring) :
  horizontal_face ring = true ↔
  (3 < length ring)%nat ∧ ∃ z, ∀ c, c ∈ ring → cz c = z.
Proof.
  unfold horizontal_face.
  rewrite andb_true_iff, !bool_decide_eq_true, size_list_to_set_1.
  split.
  - intros [Hlen [_ [z Hz]]]. split; [done|]. exists z. intros c Hc.
    apply Hz. apply list_elem_of_fmap. eauto.
  - intros [Hlen [z Hz]]. split; [done|]. split.
    + destruct ring; simpl in *; [lia | done].
    + exists z. intros x [c [-> Hc]]%list_elem_of_fmap. by apply Hz.
Qed.

Lemma horizontal_face_ring_z (ring : Ring) :
  horizontal_face ring = true →
  ∃ z, ring_z ring = Some z ∧ ∀ c, c ∈ ring → cz c = z.
Proof.
  intros [Hlen [z Hz]]%horizontal_face_spec.
  destruct ring as [|c0 ring]; simpl in Hlen; [lia|].
  exists (cz c0). split; [done|]. intros c Hc.
  rewrite (Hz c Hc). symmetry. apply Hz. left.
Qed.

(** ** The scan of the rings *)

Lemma scan_polygon_dropped st mp :
  horizontal_face (ring0 mp) = false → scan_polygon st mp = st.
Proof. unfold scan_polygon. by intros ->. Qed.

Lemma scan_polygon_kept st mp z :
  face_z mp = Some z →
  scan_polygon st mp =
    {| min_h := py_min (min_h st) z;
       building_parts :=
         if OrderedDict.mem (xy_of (ring0 mp)) (building_parts st)
         then OrderedDict.mutate (λ zs, zs ++ [z]) (xy_of (ring0 mp))
                (building_parts st)
         else OrderedDict.set (xy_of (ring0 mp)) [z] (building_parts st) |}.
Proof.
  unfold face_z, scan_polygon, ring_z.
  destruct (horizontal_face (ring0 mp)); [|done].
  destruct (ring0 mp) as [|c0 r]; [done|]. simpl. by intros [= ->].
Qed.

Lemma face_z_None mp : face_z mp = None ↔ horizontal_face (ring0 mp) = false.
Proof.
  unfold face_z. destruct (horizontal_face (ring0 mp)) eqn:Hh; [|done].
  apply horizontal_face_ring_z in Hh as [z [-> _]]. done.
Qed.

Lemma scan_polygon_skip st mp : face_z mp = None → scan_polygon st mp = st.
Proof. intros ?%face_z_None. by apply scan_polygon_dropped. Qed.

Lemma kept_z_face_z k mp :
  kept_z k mp = if decide (xy_of (ring0 mp) = k) then face_z mp else None.
Proof.
  unfold kept_z, face_z. destruct (horizontal_face (ring0 mp)); simpl.
  - by case_bool_decide; case_decide.
  - by case_decide.
Qed.

Lemma scan_horizontal_only polygons st :
  fold_left scan_polygon
    (filter (λ mp, horizontal_face (ring0 mp)) polygons) st
  = fold_left scan_polygon polygons st.
Proof.
  revert st. induction polygons as [|mp polygons IH]; intros st; [done|].
  destruct (horizontal_face (ring0 mp)) eqn:Hh.
  - rewrite filter_cons_True by by rewrite Hh. simpl. apply IH.
  - rewrite filter_cons_False by (rewrite Hh; intros []). simpl.
    rewrite scan_polygon_dropped by done. apply IH.
Qed.

Lemma scan_min_h polygons st :
  min_h (fold_left scan_polygon polygons st)
  = fold_left py_min (omap face_z polygons) (min_h st).
Proof.
  revert st. induction polygons as [|mp polygons IH]; intros st; [done|].
  simpl. rewrite IH. destruct (face_z mp) as [z|] eqn:Hz.
  - by rewrite (scan_polygon_kept _ _ z).
  - by rewrite scan_polygon_skip.
Qed.

Lemma scan_get polygons st k :
  OrderedDict.get k (building_parts (fold_left scan_polygon polygons st))
  = match OrderedDict.get k (building_parts st) with
    | Some zs => Some (zs ++ omap (kept_z k) polygons)
    | None => match omap (kept_z k) polygons with
              | [] => None
              | zs => Some zs
              end
    end.
Proof.
  revert st. induction polygons as [|mp polygons IH]; intros st.
  { simpl. destruct (OrderedDict.get _ _); [by rewrite app_nil_r | done]. }
  simpl. rewrite IH. rewrite kept_z_face_z.
  destruct (face_z mp) as [z|] eqn:Hz.
  - rewrite (scan_polygon_kept _ _ z) by done. simpl.
    rewrite OrderedDictFacts.mem_get.
    destruct (OrderedDict.get (xy_of (ring0 mp)) (building_parts st))
      as [zs0|] eqn:Hg.
    + rewrite bool_decide_eq_true_2 by eauto.
      rewrite OrderedDictFacts.get_mutate.
      destruct (decide (k = xy_of (ring0 mp))) as [->|Hk].
      * rewrite Hg. simpl. rewrite decide_True by done.
        by rewrite <-app_assoc.
      * by rewrite decide_False by done.
    + rewrite bool_decide_eq_false_2 by (intros [? ?]; done).
      rewrite OrderedDictFacts.get_set.
      destruct (decide (k = xy_of (ring0 mp))) as [->|Hk].
      * rewrite Hg. by rewrite decide_True by done.
      * by rewrite decide_False by done.
  - rewrite scan_polygon_skip by done. by case_decide.
Qed.

Lemma scan_keys_NoDup polygons st :
  NoDup (OrderedDict.keys (building_parts st)) →
  NoDup (OrderedDict.keys (building_parts (fold_left scan_polygon polygons st))).
Proof.
  revert st. induction polygons as [|mp polygons IH]; intros st Hnd; [done|].
  simpl. apply IH. destruct (face_z mp) as [z|] eqn:Hz.
  - rewrite (scan_polygon_kept _ _ z) by done. simpl.
    rewrite OrderedDictFacts.mem_get. case_bool_decide as Hg.
    + by rewrite OrderedDictFacts.keys_mutate.
    + assert (OrderedDict.get (xy_of (ring0 mp)) (building_parts st) = None)
        as Hn by (by apply eq_None_not_Some).
      rewrite OrderedDictFacts.keys_set_fresh by done.
      apply NoDup_app. split; [done|]. split; [|apply NoDup_singleton].
      intros x Hx ->%list_elem_of_singleton.
      by apply OrderedDictFacts.get_None in Hn.
  - by rewrite scan_polygon_skip.
Qed.

(** ** [min] and [max] *)

Lemma py_min_le_l a b : (py_min a b ≤ a)%Qc.
Proof.
  unfold py_min. case_decide; [by apply Qclt_le_weak | apply Qcle_refl].
Qed.

Lemma py_min_le_r a b : (py_min a b ≤ b)%Qc.
Proof.
  unfold py_min. case_decide; [apply Qcle_refl | by apply Qcle_ngt].
Qed.

Lemma py_min_cases a b : py_min a b = a ∨ py_min a b = b.
Proof. unfold py_min. case_decide; auto. Qed.

Lemma fold_py_min_le_init zs a : (fold_left py_min zs a ≤ a)%Qc.
Proof.
  revert a. induction zs as [|z zs IH]; intros a; simpl; [apply Qcle_refl|].
  eapply Qcle_trans; [apply IH | apply py_min_le_l].
Qed.

Lemma fold_py_min_le_elem zs a z : z ∈ zs → (fold_left py_min zs a ≤ z)%Qc.
Proof.
  revert a. induction zs as [|z0 zs IH]; intros a Hin; [inversion Hin|].
  simpl. apply elem_of_cons in Hin as [->|Hin]; [|by apply IH].
  eapply Qcle_trans; [apply fold_py_min_le_init | apply py_min_le_r].
Qed.

Lemma fold_py_min_cases zs a :
  fold_left py_min zs a = a ∨ fold_left py_min zs a ∈ zs.
Proof.
  revert a. induction zs as [|z zs IH]; intros a; simpl; [by left|].
  destruct (IH (py_min a z)) as [->|Hin].
  - destruct (py_min_cases a z) as [->| ->]; [by left | right; left].
  - right. by right.
Qed.

Lemma fold_max_ge_init zs a :
  (a ≤ fold_left (λ m x, if decide (m < x)%Qc then x else m) zs a)%Qc.
Proof.
  revert a. induction zs as [|z zs IH]; intros a; simpl; [apply Qcle_refl|].
  eapply Qcle_trans; [|apply IH].
  case_decide; [by apply Qclt_le_weak | apply Qcle_refl].
Qed.

Lemma fold_max_ge_elem zs a z :
  z ∈ zs → (z ≤ fold_left (λ m x, if decide (m < x)%Qc then x else m) zs a)%Qc.
Proof.
  revert a. induction zs as [|z0 zs IH]; intros a Hin; [inversion Hin|].
  simpl. apply elem_of_cons in Hin as [->|Hin]; [|by apply IH].
  eapply Qcle_trans; [|apply fold_max_ge_init].
  case_decide; [apply Qcle_refl | by apply Qcle_ngt].
Qed.

Lemma fold_max_cases zs a :
  let m := fold_left (λ m x, if decide (m < x)%Qc then x else m) zs a in
  m = a ∨ m ∈ zs.
Proof.
  revert a. induction zs as [|z zs IH]; intros a; simpl; [by left|].
  destruct (IH (if decide (a < z)%Qc then z else a)) as [->|Hin].
  - case_decide; [right; left | by left].
  - right. by right.
Qed.

Lemma py_max_spec zs h :
  py_max zs = Some h → h ∈ zs ∧ ∀ z, z ∈ zs → (z ≤ h)%Qc.
Proof.
  destruct zs as [|z0 zs]; [done|]. simpl. intros [= <-]. split.
  - destruct (fold_max_cases zs z0) as [->|Hin]; [left | by right].
  - intros z [->|Hin]%elem_of_cons;
      [apply fold_max_ge_init | by apply fold_max_ge_elem].
Qed.

Lemma py_max_nonempty zs : zs ≠ [] → py_max zs = Some (max_of zs).
Proof. by destruct zs. Qed.

(** ** Running the monad *)

Lemma py_bind_returned {A B} (m : Py A) (k : A → Py B) w a w' :
  m w = (Returned a, w') → (m ≫= k) w = k a w'.
Proof. unfold mbind, Py_bind. by intros ->. Qed.

Lemma py_bind_raised {A B} (m : Py A) (k : A → Py B) w e w' :
  m w = (Raised e, w') → (m ≫= k) w = (Raised e, w').
Proof. unfold mbind, Py_bind. by intros ->. Qed.

Lemma py_bind_ext {A B} (m : Py A) (k1 k2 : A → Py B) w :
  (∀ a w', k1 a w' = k2 a w') → (m ≫= k1) w = (m ≫= k2) w.
Proof. intros Hk. unfold mbind, Py_bind. destruct (m w) as [[a|e] w']; auto. Qed.

Lemma py_bind_congr {A B} (m1 m2 : Py A) (k : A → Py B) w :
  m1 w = m2 w → (m1 ≫= k) w = (m2 ≫= k) w.
Proof. unfold mbind, Py_bind. by intros ->. Qed.

Lemma update_height_new_row op properties k h w :
  update_height op (new_row properties k h) w
  = (Returned (new_row properties k (op h)), w).
Proof.
  unfold update_height, new_row.
  rewrite lookup_insert_ne by done. rewrite lookup_insert_eq.
  unfold mret, Py_ret. do 2 f_equal.
  rewrite (insert_insert_ne _ "height" "geometry") by done.
  by rewrite insert_insert_eq.
Qed.

Lemma emit_part_loop properties (bp : list (XY * list num)) acc w :
  Forall (λ item, item.2 ≠ []) bp →
  py_for (OrderedDict.items bp) (emit_part properties) acc w
  = (Returned (acc ++ part_rows id properties bp), w).
Proof.
  unfold OrderedDict.items, part_rows. revert acc.
  induction bp as [|[k zs] bp IH]; intros acc Hne.
  { simpl. by rewrite app_nil_r. }
  apply Forall_cons in Hne as [Hzs Hne]. simpl in Hzs.
  cbn [py_for].
  rewrite (py_bind_returned _ _ _ (acc ++ [new_row properties k (max_of zs)]) w).
  - rewrite IH by done. by rewrite <-app_assoc.
  - unfold emit_part. by rewrite py_max_nonempty by done.
Qed.

Lemma emit_parts_run properties (bp : list (XY * list num)) w :
  Forall (λ item, item.2 ≠ []) bp →
  emit_parts properties bp w = (Returned (part_rows id properties bp), w).
Proof. intros Hne. unfold emit_parts. by rewrite emit_part_loop. Qed.

Lemma update_height_loop op' op properties (bp : list (XY * list num)) w :
  py_for_update (part_rows op properties bp) (update_height op') w
  = (Returned (part_rows (λ h, op' (op h)) properties bp), w).
Proof.
  unfold part_rows. revert w. induction bp as [|[k zs] bp IH]; intros w; [done|].
  rewrite !fmap_cons. cbn [py_for_update].
  erewrite py_bind_returned by apply update_height_new_row.
  by erewrite py_bind_returned by apply IH.
Qed.

(** ** One feature *)

Lemma scan_rings_lookup z_unit_in polygons k zs :
  (k, zs) ∈ building_parts (scan_rings z_unit_in polygons) ↔
  zs ≠ [] ∧ zs = omap (kept_z k) polygons.
Proof.
  unfold scan_rings.
  rewrite OrderedDictFacts.elem_of_get
    by (apply scan_keys_NoDup; simpl; apply NoDup_nil_2).
  rewrite scan_get. simpl.
  destruct (omap (kept_z k) polygons) as [|z zs']; split.
  - done.
  - by intros [? ->].
  - by intros [= <-].
  - by intros [_ ->].
Qed.

Lemma scan_rings_nonempty z_unit_in polygons :
  Forall (λ item : XY * list num, item.2 ≠ [])
    (building_parts (scan_rings z_unit_in polygons)).
Proof.
  apply Forall_forall. intros [k zs] Hin.
  by apply scan_rings_lookup in Hin as [? _].
Qed.

Lemma relative_features_run z_unit_in relative_h feature w :
  relative_features z_unit_in relative_h feature w
  = (Returned
       (part_rows
          (relative_to relative_h
             (min_h (scan_rings z_unit_in (geometry feature))))
          (properties feature)
          (building_parts (scan_rings z_unit_in (geometry feature)))),
     w).
Proof.
  unfold relative_features.
  erewrite py_bind_returned
    by (apply emit_parts_run, scan_rings_nonempty).
  unfold adjust_relative, relative_to. destruct relative_h; [|done].
  by rewrite update_height_loop.
Qed.

Lemma convert_units_run z_unit_in op properties
    (bp : list (XY * list num)) w :
  convert_units z_unit_in (part_rows op properties bp) w
  = if bool_decide (valid_units z_unit_in)
    then (Returned (part_rows (λ h, unit_factor z_unit_in (op h))
                      properties bp), w)
    else (Raised (NameError "wrongUnits"), w).
Proof.
  unfold convert_units, unit_factor, valid_units.
  destruct (z_unit_in =? "ft")%string eqn:Hft.
  - apply String.eqb_eq in Hft as ->.
    rewrite bool_decide_eq_true_2 by by right.
    by rewrite update_height_loop.
  - apply String.eqb_neq in Hft.
    destruct (z_unit_in =? "m")%string eqn:Hm.
    + apply String.eqb_eq in Hm as ->.
      by rewrite bool_decide_eq_true_2 by by left.
    + apply String.eqb_neq in Hm.
      by rewrite bool_decide_eq_false_2 by (intros [?|?]; done).
Qed.

Lemma split_feature_run z_unit_in relative_h feature w :
  split_feature z_unit_in relative_h feature w
  = if bool_decide (valid_units z_unit_in)
    then (Returned (feature_rows z_unit_in relative_h feature), w)
    else (Raised (NameError "wrongUnits"), w).
Proof.
  unfold split_feature.
  erewrite py_bind_returned by apply relative_features_run.
  by rewrite convert_units_run.
Qed.

(** ** The loop over the features and the whole call *)

Lemma feature_loop_valid z_unit_in relative_h features acc w :
  valid_units z_unit_in →
  py_for features
    (λ feature_list feature,
       splitted_feature_list ← split_feature z_unit_in relative_h feature;
       mret (feature_list ++ splitted_feature_list)) acc w
  = (Returned (acc ++ concat (feature_rows z_unit_in relative_h <$> features)),
     w).
Proof.
  intros Hu. revert acc.
  induction features as [|f features IH]; intros acc.
  { simpl. by rewrite app_nil_r. }
  cbn [py_for].
  erewrite py_bind_returned; [rewrite IH; by rewrite <-app_assoc|].
  erewrite py_bind_returned; [done|].
  rewrite split_feature_run. by rewrite bool_decide_eq_true_2.
Qed.

Lemma feature_loop_invalid z_unit_in relative_h f features acc w :
  ¬ valid_units z_unit_in →
  py_for (f :: features)
    (λ feature_list feature,
       splitted_feature_list ← split_feature z_unit_in relative_h feature;
       mret (feature_list ++ splitted_feature_list)) acc w
  = (Raised (NameError "wrongUnits"), w).
Proof.
  intros Hu. cbn [py_for].
  erewrite py_bind_raised; [done|].
  erewrite py_bind_raised; [done|].
  rewrite split_feature_run. by rewrite bool_decide_eq_false_2.
Qed.

Lemma feature_loop_pass z_unit_in relative_h geodataframe w :
  units_pass z_unit_in geodataframe →
  py_for (gdf_features geodataframe)
    (λ feature_list feature,
       splitted_feature_list ← split_feature z_unit_in relative_h feature;
       mret (feature_list ++ splitted_feature_list)) [] w
  = (Returned (all_rows z_unit_in relative_h geodataframe), w).
Proof.
  intros [Hu|Hnil].
  - by rewrite feature_loop_valid.
  - unfold all_rows. by rewrite Hnil.
Qed.

(** ** The library calls and the whole call *)

Lemma py_call_returned {A B} (o : Outcome A) (k : A → Py B) a w :
  o = Returned a → (py_call o ≫= k) w = k a w.
Proof. by intros ->. Qed.

Lemma py_call_raised {A B} (o : Outcome A) (k : A → Py B) e w :
  o = Raised e → (py_call o ≫= k) w = (Raised e, w).
Proof. by intros ->. Qed.

Section save_or_return_runs.
Variable lib : Library.
Implicit Types (crs : CRS) (feature_list : list Row) (w : World).

Lemma save_or_return_no_frame crs feature_list save path filename out_format
    w e :
  new_frame lib feature_list (seq 0 (length feature_list)) crs = Raised e →
  save_or_return lib crs feature_list save path filename out_format w
  = (Raised e, w).
Proof. intros Hn. unfold save_or_return. by erewrite py_call_raised. Qed.

Lemma save_or_return_no_to_crs crs feature_list save path filename out_format
    w built e :
  new_frame lib feature_list (seq 0 (length feature_list)) crs
  = Returned built →
  to_crs lib WGS84 built = Raised e →
  save_or_return lib crs feature_list save path filename out_format w
  = (Raised e, w).
Proof.
  intros Hn Ht. unfold save_or_return.
  erewrite py_call_returned by done. by erewrite py_call_raised.
Qed.

Lemma save_or_return_in_memory crs feature_list path filename out_format
    w built frame :
  new_frame lib feature_list (seq 0 (length feature_list)) crs
  = Returned built →
  to_crs lib WGS84 built = Returned frame →
  save_or_return lib crs feature_list false path filename out_format w
  = (Returned (Some frame), w).
Proof.
  intros Hn Ht. unfold save_or_return.
  erewrite py_call_returned by done. by erewrite py_call_returned.
Qed.

Lemma save_or_return_geojson crs feature_list path filename w built frame :
  new_frame lib feature_list (seq 0 (length feature_list)) crs
  = Returned built →
  to_crs lib WGS84 built = Returned frame →
  save_or_return lib crs feature_list true path filename "geojson" w
  = (none_when_written
       (write_file lib frame (path +:+ filename +:+ ".geojson") "GeoJSON"),
     with_call w frame (path +:+ filename +:+ ".geojson") "GeoJSON").
Proof.
  intros Hn Ht. unfold save_or_return.
  erewrite py_call_returned by done. erewrite py_call_returned by done.
  cbn [String.eqb Ascii.eqb Bool.eqb]. unfold mbind, Py_bind, to_file.
  by destruct (write_file lib frame _ _).
Qed.

Lemma save_or_return_shp crs feature_list path filename w built frame :
  new_frame lib feature_list (seq 0 (length feature_list)) crs
  = Returned built →
  to_crs lib WGS84 built = Returned frame →
  save_or_return lib crs feature_list true path filename "shp" w
  = (none_when_written
       (write_file lib frame (path +:+ filename +:+ ".shp") "ESRI Shapefile"),
     with_call w frame (path +:+ filename +:+ ".shp") "ESRI Shapefile").
Proof.
  intros Hn Ht. unfold save_or_return.
  erewrite py_call_returned by done. erewrite py_call_returned by done.
  cbn [String.eqb Ascii.eqb Bool.eqb]. unfold mbind, Py_bind, to_file.
  by destruct (write_file lib frame _ _).
Qed.

Lemma save_or_return_wrong_format crs feature_list path filename out_format
    w built frame :
  new_frame lib feature_list (seq 0 (length feature_list)) crs
  = Returned built →
  to_crs lib WGS84 built = Returned frame →
  ¬ valid_format out_format →
  save_or_return lib crs feature_list true path filename out_format w
  = (Raised (NameError "wrongFormat"), w).
Proof.
  intros Hn Ht Hf. unfold save_or_return.
  erewrite py_call_returned by done. erewrite py_call_returned by done.
  destruct (out_format =? "geojson")%string eqn:Hg.
  { apply String.eqb_eq in Hg. exfalso. apply Hf. by left. }
  destruct (out_format =? "shp")%string eqn:Hs.
  { apply String.eqb_eq in Hs. exfalso. apply Hf. by right. }
  done.
Qed.

(** Lines 118-139 end in one of six ways. *)
Lemma save_or_return_cases crs feature_list save path filename out_format w :
  let run := save_or_return lib crs feature_list save path filename
               out_format w in
  (∃ e, new_frame lib feature_list (seq 0 (length feature_list)) crs
        = Raised e
        ∧ run = (Raised e, w))
  ∨ ∃ built,
      new_frame lib feature_list (seq 0 (length feature_list)) crs
      = Returned built
      ∧ ((∃ e, to_crs lib WGS84 built = Raised e ∧ run = (Raised e, w))
         ∨ ∃ frame,
             to_crs lib WGS84 built = Returned frame
             ∧ ((save = false ∧ run = (Returned (Some frame), w))
                ∨ (save = true ∧ out_format = "geojson"
                   ∧ run = (none_when_written
                              (write_file lib frame
                                 (path +:+ filename +:+ ".geojson") "GeoJSON"),
                            with_call w frame
                              (path +:+ filename +:+ ".geojson") "GeoJSON"))
                ∨ (save = true ∧ out_format = "shp"
                   ∧ run = (none_when_written
                              (write_file lib frame
                                 (path +:+ filename +:+ ".shp")
                                 "ESRI Shapefile"),
                            with_call w frame
                              (path +:+ filename +:+ ".shp")
                              "ESRI Shapefile"))
                ∨ (save = true ∧ ¬ valid_format out_format
                   ∧ run = (Raised (NameError "wrongFormat"), w)))).
Proof.
  intros run. subst run.
  destruct (new_frame lib feature_list (seq 0 (length feature_list)) crs)
    as [built|e] eqn:Hn.
  2:{ left. exists e. split; [done|]. by apply save_or_return_no_frame. }
  right. exists built. split; [done|].
  destruct (to_crs lib WGS84 built) as [frame|e] eqn:Ht.
  2:{ left. exists e. split; [done|].
      by eapply save_or_return_no_to_crs. }
  right. exists frame. split; [done|]. destruct save.
  2:{ left. split; [done|]. by eapply save_or_return_in_memory. }
  right. destruct (decide (out_format = "geojson")) as [->|Hg].
  { left. do 2 (split; [done|]). by eapply save_or_return_geojson. }
  right. destruct (decide (out_format = "shp")) as [->|Hs].
  { left. do 2 (split; [done|]). by eapply save_or_return_shp. }
  right. assert (¬ valid_format out_format) as Hf by by intros [?|?].
  do 2 (split; [done|]). by eapply save_or_return_wrong_format.
Qed.

Lemma save_or_return_stdout crs feature_list save path filename out_format w :
  stdout (save_or_return lib crs feature_list save path filename
            out_format w).2 = stdout w.
Proof.
  destruct (save_or_return_cases crs feature_list save path filename
              out_format w)
    as [(e & _ & ->)|(built & _ & [(e & _ & ->)|(frame & _ &
         [(_ & ->)|[(_ & _ & ->)|[(_ & _ & ->)|(_ & _ & ->)]]])])]; done.
Qed.

Lemma convertor_wrong_units geodataframe z_unit_in relative_h save
    path filename out_format w :
  ¬ units_pass z_unit_in geodataframe →
  multipatch_convertor lib geodataframe z_unit_in relative_h save
    path filename out_format w
  = (Raised (NameError "wrongUnits"), w).
Proof.
  intros Hu. unfold multipatch_convertor, convert_features.
  destruct (gdf_features geodataframe) as [|f features] eqn:Hf.
  { exfalso. apply Hu. by right. }
  erewrite py_bind_raised; [done|].
  apply feature_loop_invalid. intros Hv. apply Hu. by left.
Qed.

Lemma convertor_pass geodataframe z_unit_in relative_h save
    path filename out_format w :
  units_pass z_unit_in geodataframe →
  multipatch_convertor lib geodataframe z_unit_in relative_h save
    path filename out_format w
  = save_or_return lib (gdf_crs geodataframe)
      (all_rows z_unit_in relative_h geodataframe)
      save path filename out_format w.
Proof.
  intros Hu. unfold multipatch_convertor, convert_features.
  by erewrite py_bind_returned by by apply feature_loop_pass.
Qed.

Lemma units_pass_or_not z_unit_in geodataframe :
  units_pass z_unit_in geodataframe ∨ ¬ units_pass z_unit_in geodataframe.
Proof.
  unfold units_pass. destruct (decide (valid_units z_unit_in)); [by auto|].
  destruct (gdf_features geodataframe); [by auto|].
  right. by intros [?|?].
Qed.

End save_or_return_runs.

(** ** What the scan keeps *)

Lemma kept_z_spec k mp z :
  kept_z k mp = Some z ↔
  horizontal_face (ring0 mp) = true ∧ xy_of (ring0 mp) = k
  ∧ ∀ c, c ∈ ring0 mp → cz c = z.
Proof.
  unfold kept_z. destruct (horizontal_face (ring0 mp)) eqn:Hh; simpl.
  - destruct (horizontal_face_ring_z _ Hh) as [z' [Hz' Hall]].
    case_bool_decide as Hk.
    + rewrite Hz'. split.
      * intros [= <-]. done.
      * intros [_ [_ Hc]]. f_equal.
        destruct (ring0 mp) as [|c0 r]; [done|].
        rewrite <-(Hall c0), <-(Hc c0); [done|left|left].
    + split; [done | by intros [_ [? _]]].
  - split; [done | by intros [? _]].
Qed.

Lemma face_z_spec mp z :
  face_z mp = Some z ↔
  horizontal_face (ring0 mp) = true ∧ ∀ c, c ∈ ring0 mp → cz c = z.
Proof.
  pose proof (kept_z_spec (xy_of (ring0 mp)) mp z) as Hk.
  rewrite kept_z_face_z, decide_True in Hk by done. rewrite Hk. tauto.
Qed.

Lemma scan_rings_keys z_unit_in polygons k :
  k ∈ OrderedDict.keys (building_parts (scan_rings z_unit_in polygons)) ↔
  ∃ mp, mp ∈ polygons ∧ horizontal_face (ring0 mp) = true
        ∧ xy_of (ring0 mp) = k.
Proof.
  split.
  - intros Hin.
    destruct (OrderedDict.get k (building_parts (scan_rings z_unit_in polygons)))
      as [zs|] eqn:Hg.
    2:{ by apply OrderedDictFacts.get_None in Hg. }
    unfold scan_rings in Hg. rewrite scan_get in Hg. simpl in Hg.
    destruct (omap (kept_z k) polygons) as [|z zs'] eqn:Ho; [done|].
    assert (z ∈ omap (kept_z k) polygons) as Hz by (rewrite Ho; left).
    apply list_elem_of_omap in Hz as [mp [Hmp Hk]].
    apply kept_z_spec in Hk as [? [? _]]. eauto.
  - intros [mp [Hmp [Hh Hk]]].
    destruct (horizontal_face_ring_z _ Hh) as [z [_ Hall]].
    assert (kept_z k mp = Some z) as Hkz by by apply kept_z_spec.
    assert (z ∈ omap (kept_z k) polygons) as Hz
      by (apply list_elem_of_omap; eauto).
    apply dec_stable. intros Hn. apply OrderedDictFacts.get_None in Hn.
    unfold scan_rings in Hn. rewrite scan_get in Hn. simpl in Hn.
    destruct (omap (kept_z k) polygons); [inversion Hz | done].
Qed.

Lemma split_feature_horizontal_only z_unit_in relative_h feature :
  split_feature z_unit_in relative_h (horizontal_only feature)
  = split_feature z_unit_in relative_h feature.
Proof.
  unfold split_feature, relative_features, horizontal_only, scan_rings.
  simpl. by rewrite scan_horizontal_only.
Qed.

Lemma feature_loop_horizontal_only z_unit_in relative_h features acc w :
  py_for (horizontal_only <$> features)
    (λ feature_list feature,
       splitted_feature_list ← split_feature z_unit_in relative_h feature;
       mret (feature_list ++ splitted_feature_list)) acc w
  = py_for features
      (λ feature_list feature,
         splitted_feature_list ← split_feature z_unit_in relative_h feature;
         mret (feature_list ++ splitted_feature_list)) acc w.
Proof.
  revert acc w. induction features as [|f features IH]; intros acc w; [done|].
  rewrite fmap_cons. cbn [py_for]. rewrite split_feature_horizontal_only.
  apply py_bind_ext. intros fl w'. apply IH.
Qed.

Lemma scan_polygon_records st mp :
  horizontal_face (ring0 mp) = true →
  ∃ z, (∀ c, c ∈ ring0 mp → cz c = z)
       ∧ min_h (scan_polygon st mp) = py_min (min_h st) z
       ∧ OrderedDict.get (xy_of (ring0 mp))
           (building_parts (scan_polygon st mp))
         = Some (default []
                   (OrderedDict.get (xy_of (ring0 mp)) (building_parts st))
                 ++ [z])
       ∧ ∀ k, k ≠ xy_of (ring0 mp) →
           OrderedDict.get k (building_parts (scan_polygon st mp))
           = OrderedDict.get k (building_parts st).
Proof.
  intros Hh. destruct (horizontal_face_ring_z _ Hh) as [z [Hz Hall]].
  exists z. split; [done|].
  rewrite (scan_polygon_kept _ _ z) by (unfold face_z; by rewrite Hh).
  cbn [min_h building_parts]. split; [done|].
  rewrite OrderedDictFacts.mem_get.
  destruct (OrderedDict.get (xy_of (ring0 mp)) (building_parts st))
    as [zs|] eqn:Hg.
  - rewrite bool_decide_eq_true_2 by eauto. split.
    + by rewrite OrderedDictFacts.get_mutate, decide_True, Hg by done.
    + intros k Hk. by rewrite OrderedDictFacts.get_mutate, decide_False.
  - rewrite bool_decide_eq_false_2 by (intros [? ?]; done). split.
    + by rewrite OrderedDictFacts.get_set, decide_True by done.
    + intros k Hk. by rewrite OrderedDictFacts.get_set, decide_False.
Qed.

(** C1. A ring is kept by the scan exactly when it has more than 3 positions
    and all of them carry one and the same Z: the test of line 72 says so.  A
    ring that fails it leaves the scan state as it was.  A ring that passes
    it has its Z appended to the list that [building_parts] holds for its
    footprint (a list of this Z alone when the footprint is new), lowers the
    running minimum to its Z where that is less, and leaves the other
    footprints alone.  So, after the scan, the keys of [building_parts] are
    the footprints of the rings that pass, and the list of a footprint is
    the list of the Z of the rings of this footprint that pass, one entry
    for each in the order of the rings.  The rings that fail (fewer than 4
    positions, or differing Z as on a wall) contribute to no output: the
    outcome of a feature, and of the whole call, is what it is on the input
    without them. *)
Theorem only_horizontal_faces_are_kept :
  (∀ ring : Ring,
     horizontal_face ring = true ↔
     (3 < length ring)%nat ∧ ∃ z, ∀ c, c ∈ ring → cz c = z)
  ∧ (∀ st mp, horizontal_face (ring0 mp) = false → scan_polygon st mp = st)
  ∧ (∀ st mp,
       horizontal_face (ring0 mp) = true →
       ∃ z, (∀ c, c ∈ ring0 mp → cz c = z)
            ∧ min_h (scan_polygon st mp) = py_min (min_h st) z
            ∧ OrderedDict.get (xy_of (ring0 mp))
                (building_parts (scan_polygon st mp))
              = Some (default []
                        (OrderedDict.get (xy_of (ring0 mp))
                           (building_parts st))
                      ++ [z])
            ∧ ∀ k, k ≠ xy_of (ring0 mp) →
                OrderedDict.get k (building_parts (scan_polygon st mp))
                = OrderedDict.get k (building_parts st))
  ∧ (∀ z_unit_in polygons k,
       k ∈ OrderedDict.keys (building_parts (scan_rings z_unit_in polygons)) ↔
       ∃ mp, mp ∈ polygons ∧ horizontal_face (ring0 mp) = true
             ∧ xy_of (ring0 mp) = k)
  ∧ (∀ z_unit_in polygons k zs,
       (k, zs) ∈ building_parts (scan_rings z_unit_in polygons) ↔
       zs ≠ [] ∧ zs = omap (kept_z k) polygons)
  ∧ (∀ k mp z,
       kept_z k mp = Some z ↔
       horizontal_face (ring0 mp) = true ∧ xy_of (ring0 mp) = k
       ∧ ∀ c, c ∈ ring0 mp → cz c = z)
  ∧ (∀ z_unit_in relative_h feature w,
       split_feature z_unit_in relative_h (horizontal_only feature) w
       = split_feature z_unit_in relative_h feature w)
  ∧ (∀ lib geodataframe z_unit_in relative_h save path filename
       out_format w,
       multipatch_convertor lib
         {| gdf_crs := gdf_crs geodataframe;
            gdf_features := horizontal_only <$> gdf_features geodataframe |}
         z_unit_in relative_h save path filename out_format w
       = multipatch_convertor lib geodataframe
           z_unit_in relative_h save path filename out_format w).
Proof.
  split; [apply horizontal_face_spec|].
  split; [apply scan_polygon_dropped|].
  split; [apply scan_polygon_records|].
  split; [apply scan_rings_keys|].
  split; [apply scan_rings_lookup|].
  split; [apply kept_z_spec|].
  split; [intros; by rewrite split_feature_horizontal_only|].
  intros. unfold multipatch_convertor, convert_features.
  cbn [gdf_crs gdf_features].
  apply py_bind_congr, feature_loop_horizontal_only.
Qed.

(** ** The new features of a feature *)

Lemma new_row_lookup properties k h :
  new_row properties k h !! "geometry" = Some (VPolygon k)
  ∧ new_row properties k h !! "height" = Some (VNum h)
  ∧ ∀ key, key ≠ "geometry" → key ≠ "height" →
      new_row properties k h !! key = properties !! key.
Proof.
  unfold new_row. split; [apply lookup_insert_eq|]. split.
  - rewrite lookup_insert_ne by done. apply lookup_insert_eq.
  - intros key Hg Hh. by rewrite !lookup_insert_ne by done.
Qed.

Lemma recorded_max z_unit_in polygons k zs :
  (k, zs) ∈ building_parts (scan_rings z_unit_in polygons) →
  (∃ mp, mp ∈ polygons ∧ horizontal_face (ring0 mp) = true
         ∧ xy_of (ring0 mp) = k ∧ ∀ c, c ∈ ring0 mp → cz c = max_of zs)
  ∧ (∀ mp c, mp ∈ polygons → horizontal_face (ring0 mp) = true →
       xy_of (ring0 mp) = k → c ∈ ring0 mp → (cz c ≤ max_of zs)%Qc).
Proof.
  intros [Hne Hzs]%scan_rings_lookup.
  pose proof (py_max_nonempty zs Hne) as Hmax.
  apply py_max_spec in Hmax as [Hin Hub]. split.
  - assert (max_of zs ∈ omap (kept_z k) polygons) as Hin'
      by by rewrite <-Hzs.
    apply list_elem_of_omap in Hin' as [mp [Hmp Hk]].
    apply kept_z_spec in Hk as [? [? ?]]. eauto 10.
  - intros mp c Hmp Hh Hk Hc.
    destruct (horizontal_face_ring_z _ Hh) as [z [_ Hall]].
    rewrite (Hall c Hc). apply Hub. rewrite Hzs.
    apply list_elem_of_omap. exists mp. split; [done|].
    by apply kept_z_spec.
Qed.

Lemma top_bottom_wall_scan :
  scan_rings "m" (geometry (top_bottom_wall ∅))
  = {| min_h := Qc_of_Z 0;
       building_parts := [(triangle_a, [Qc_of_Z 10; Qc_of_Z 0])] |}.
Proof. vm_compute. reflexivity. Qed.

Lemma top_bottom_wall_feature_rows properties :
  feature_rows "m" false (top_bottom_wall properties)
  = [new_row properties triangle_a (Qc_of_Z 10)].
Proof.
  unfold feature_rows.
  change (geometry (top_bottom_wall properties))
    with (geometry (top_bottom_wall ∅)).
  rewrite top_bottom_wall_scan. reflexivity.
Qed.

Lemma top_bottom_wall_rows properties w :
  split_feature "m" false (top_bottom_wall properties) w
  = (Returned [new_row properties triangle_a (Qc_of_Z 10)], w).
Proof.
  rewrite split_feature_run, bool_decide_eq_true_2 by by left.
  by rewrite top_bottom_wall_feature_rows.
Qed.

(** C2. The rings the scan keeps are grouped by their (x, y) sequence, and
    lines 85-98 emit one new feature per group and no other: the new features
    are the rows of a list [parts] of pairs (footprint, height) in which no
    footprint occurs twice, the footprints are those of the kept rings, and
    the height of a footprint is the Z of one of its kept rings and at least
    the Z of each of them (their maximum).  The row of a pair holds the
    polygon of the footprint under 'geometry', the height under 'height', and
    the properties of the source feature under every other key.  This is the
    list before the relative adjustment and the conversion of units.  The
    feature with a top ring at Z=10, the bottom ring of the same footprint at
    Z=0 and a wall yields one new feature, of height 10. *)
Theorem one_new_feature_per_footprint
    (z_unit_in : string) (feature : Feature) (w : World) :
  (∃ parts : list (XY * num),
     emit_parts (properties feature)
       (building_parts (scan_rings z_unit_in (geometry feature))) w
     = (Returned ((λ p : XY * num, new_row (properties feature) p.1 p.2)
                  <$> parts), w)
     ∧ NoDup parts.*1
     ∧ (∀ k, k ∈ parts.*1 ↔
          ∃ mp, mp ∈ geometry feature ∧ horizontal_face (ring0 mp) = true
                ∧ xy_of (ring0 mp) = k)
     ∧ (∀ k h, (k, h) ∈ parts →
          (∃ mp, mp ∈ geometry feature ∧ horizontal_face (ring0 mp) = true
                 ∧ xy_of (ring0 mp) = k ∧ ∀ c, c ∈ ring0 mp → cz c = h)
          ∧ (∀ mp c, mp ∈ geometry feature →
               horizontal_face (ring0 mp) = true →
               xy_of (ring0 mp) = k → c ∈ ring0 mp → (cz c ≤ h)%Qc)))
  ∧ (∀ k h,
       new_row (properties feature) k h !! "geometry" = Some (VPolygon k)
       ∧ new_row (properties feature) k h !! "height" = Some (VNum h)
       ∧ ∀ key, key ≠ "geometry" → key ≠ "height" →
           new_row (properties feature) k h !! key
           = properties feature !! key)
  ∧ split_feature "m" false (top_bottom_wall (properties feature)) w
    = (Returned [new_row (properties feature) triangle_a (Qc_of_Z 10)], w).
Proof.
  split; [|split; [apply new_row_lookup | apply top_bottom_wall_rows]].
  set (bp := building_parts (scan_rings z_unit_in (geometry feature))).
  exists ((λ item : XY * list num, (item.1, max_of item.2)) <$> bp).
  assert (((λ item : XY * list num, (item.1, max_of item.2)) <$> bp).*1
          = OrderedDict.keys bp) as Hkeys.
  { unfold OrderedDict.keys. rewrite <-list_fmap_compose.
    by apply list_fmap_ext. }
  rewrite Hkeys. split; [|split; [|split]].
  - rewrite emit_parts_run by apply scan_rings_nonempty.
    unfold part_rows. by rewrite <-list_fmap_compose.
  - apply scan_keys_NoDup. simpl. apply NoDup_nil_2.
  - apply scan_rings_keys.
  - intros k h [[k' zs] [[= -> ->] Hin]]%list_elem_of_fmap.
    by apply (recorded_max z_unit_in).
Qed.

(** ** The errors *)

(** C3. The check of the units stands inside the loop over the features
    (line 112), so on a frame without features no unit is ever looked at:
    whatever the library does, the call with ['yd'] is the call with ['m'],
    lines 118-139 run on the empty list of rows. *)
Theorem wrong_units_pass_on_empty_frame
    lib source relative_h save path filename out_format w :
  multipatch_convertor lib {| gdf_crs := source; gdf_features := [] |}
    "yd" relative_h save path filename out_format w
  = multipatch_convertor lib {| gdf_crs := source; gdf_features := [] |}
      "m" relative_h save path filename out_format w
  ∧ multipatch_convertor lib {| gdf_crs := source; gdf_features := [] |}
      "yd" relative_h save path filename out_format w
    = save_or_return lib source [] save path filename out_format w.
Proof.
  rewrite !convertor_pass by by right. done.
Qed.

(** With at least one feature the error of the units is raised, whatever the
    other arguments are. *)
Lemma wrong_units_error lib geodataframe z_unit_in relative_h save
    path filename out_format w :
  gdf_features geodataframe ≠ [] →
  ¬ valid_units z_unit_in →
  multipatch_convertor lib geodataframe z_unit_in relative_h save
    path filename out_format w
  = (Raised (NameError "wrongUnits"), w).
Proof.
  intros Hne Hu. apply convertor_wrong_units. by intros [?|?].
Qed.

Lemma top_bottom_wall_all_rows source :
  all_rows "m" false
    {| gdf_crs := source; gdf_features := [top_bottom_wall ∅] |}
  = [new_row ∅ triangle_a (Qc_of_Z 10)].
Proof.
  unfold all_rows. cbn [gdf_features fmap list_fmap concat].
  by rewrite top_bottom_wall_feature_rows.
Qed.

(** C4, as the claim states it, fails: without [save] the format is never
    looked at, and the call with ['kml'] returns its frame; with [save] the
    unit 'yd' is refused before the format 'kml' is looked at; and with
    [save] on a frame without reference system the call ends in the
    ValueError of [to_crs], again before the format is looked at. *)
Lemma wrong_format_unchecked_in_memory :
  (∃ frame,
     multipatch_convertor stand_in (wgs84_frame [top_bottom_wall ∅])
       "m" false false "./" "output" "kml" world0
     = (Returned (Some frame), world0))
  ∧ multipatch_convertor stand_in (wgs84_frame [top_bottom_wall ∅])
      "yd" false true "./" "output" "kml" world0
    = (Raised (NameError "wrongUnits"), world0)
  ∧ ∃ msg,
      multipatch_convertor stand_in (naive_frame [top_bottom_wall ∅])
        "m" false true "./" "output" "kml" world0
      = (Raised (ValueError msg), world0).
Proof.
  split; [|split].
  - eexists. rewrite convertor_pass by (left; by left).
    unfold wgs84_frame. rewrite top_bottom_wall_all_rows.
    by eapply save_or_return_in_memory.
  - apply convertor_wrong_units. intros [[?|?]|?]; discriminate.
  - eexists. rewrite convertor_pass by (left; by left).
    unfold naive_frame. rewrite top_bottom_wall_all_rows.
    by eapply save_or_return_no_to_crs.
Qed.

(** C4, amended. A call with the unit 'm' or 'ft' in which the library
    builds the frame and takes it to WGS 84 without raising (lines 119-125),
    and which asks to save and names a format other than 'geojson' and
    'shp', raises NameError 'wrongFormat' and makes no call of [to_file];
    the same call without [save] returns the frame. *)
Theorem wrong_format_error lib geodataframe z_unit_in relative_h
    path filename out_format w built frame :
  valid_units z_unit_in →
  ¬ valid_format out_format →
  new_frame lib (all_rows z_unit_in relative_h geodataframe)
    (seq 0 (length (all_rows z_unit_in relative_h geodataframe)))
    (gdf_crs geodataframe) = Returned built →
  to_crs lib (Epsg 4326) built = Returned frame →
  multipatch_convertor lib geodataframe z_unit_in relative_h true
    path filename out_format w
  = (Raised (NameError "wrongFormat"), w)
  ∧ multipatch_convertor lib geodataframe z_unit_in relative_h false
      path filename out_format w
    = (Returned (Some frame), w).
Proof.
  intros Hu Hf Hn Ht. rewrite !convertor_pass by by left. split.
  - by eapply save_or_return_wrong_format.
  - by eapply save_or_return_in_memory.
Qed.

Lemma wrong_format_error_witness :
  valid_units "m"
  ∧ ¬ valid_format "kml"
  ∧ multipatch_convertor stand_in (wgs84_frame [top_bottom_wall ∅])
      "m" false true "./" "output" "kml" world0
    = (Raised (NameError "wrongFormat"), world0).
Proof.
  assert (valid_units "m") as Hu by (left; reflexivity).
  assert (¬ valid_format "kml") as Hf by (intros [?|?]; discriminate).
  split; [exact Hu|]. split; [exact Hf|].
  refine (proj1 (wrong_format_error stand_in
                   (wgs84_frame [top_bottom_wall ∅]) "m" false
                   "./" "output" "kml" world0 _ _ Hu Hf _ _)).
  - unfold wgs84_frame. rewrite top_bottom_wall_all_rows. reflexivity.
  - reflexivity.
Defined.

(** ** The running minimum *)

Lemma part_rows_height_changed op op' properties (bp : list (XY * list num)) :
  Forall2 (height_changed op')
    (part_rows op properties bp)
    (part_rows (λ h, op' (op h)) properties bp).
Proof.
  unfold part_rows. apply Forall2_fmap, Forall_Forall2_diag, Forall_forall.
  intros [k zs] _. exists (op (max_of zs)). simpl. unfold new_row. split.
  - rewrite lookup_insert_ne by done. apply lookup_insert_eq.
  - rewrite (insert_insert_ne _ "height" "geometry") by done.
    by rewrite insert_insert_eq.
Qed.

Lemma running_min_le_seed z_unit_in feature :
  (running_min z_unit_in feature ≤ initial_min_h z_unit_in)%Qc.
Proof.
  unfold running_min, scan_rings. rewrite scan_min_h. simpl.
  apply fold_py_min_le_init.
Qed.

Lemma running_min_le_ring z_unit_in feature mp c :
  mp ∈ geometry feature → horizontal_face (ring0 mp) = true → c ∈ ring0 mp →
  (running_min z_unit_in feature ≤ cz c)%Qc.
Proof.
  intros Hmp Hh Hc. unfold running_min, scan_rings. rewrite scan_min_h.
  apply fold_py_min_le_elem, list_elem_of_omap. exists mp. split; [done|].
  destruct (horizontal_face_ring_z _ Hh) as [z [_ Hall]].
  apply face_z_spec. split; [done|]. intros c' Hc'.
  by rewrite (Hall c Hc), (Hall c' Hc').
Qed.

Lemma running_min_cases z_unit_in feature :
  running_min z_unit_in feature = initial_min_h z_unit_in
  ∨ ∃ mp, mp ∈ geometry feature ∧ horizontal_face (ring0 mp) = true
          ∧ ∀ c, c ∈ ring0 mp → cz c = running_min z_unit_in feature.
Proof.
  unfold running_min, scan_rings. rewrite scan_min_h. simpl.
  destruct (fold_py_min_cases (omap face_z (geometry feature))
              (initial_min_h z_unit_in)) as [Heq|Hin]; [by left | right].
  apply list_elem_of_omap in Hin as [mp [Hmp Hz]].
  apply face_z_spec in Hz as [Hh Hall]. eauto.
Qed.

Lemma running_min_attained z_unit_in feature mp c :
  mp ∈ geometry feature → horizontal_face (ring0 mp) = true → c ∈ ring0 mp →
  (cz c ≤ initial_min_h z_unit_in)%Qc →
  ∃ mp', mp' ∈ geometry feature ∧ horizontal_face (ring0 mp') = true
         ∧ ∀ c', c' ∈ ring0 mp' → cz c' = running_min z_unit_in feature.
Proof.
  intros Hmp Hh Hc Hle.
  destruct (running_min_cases z_unit_in feature) as [Heq|Hex]; [|done].
  exists mp. split; [done|]. split; [done|].
  destruct (horizontal_face_ring_z _ Hh) as [z [_ Hall]].
  intros c' Hc'. rewrite (Hall c' Hc'), <-(Hall c Hc).
  apply Qcle_antisym; [by rewrite Heq|].
  by apply running_min_le_ring with mp.
Qed.

Lemma high_ring_scan :
  scan_rings "m" (geometry (single_ring ∅ (Qc_of_Z 9500)))
  = {| min_h := Qc_of_Z 9000;
       building_parts := [(triangle_a, [Qc_of_Z 9500])] |}.
Proof. vm_compute. reflexivity. Qed.

Lemma two_parts_scan_ft :
  scan_rings "ft" (geometry (two_parts ∅))
  = {| min_h := Qc_of_Z 5;
       building_parts := [(triangle_a, [Qc_of_Z 5; Qc_of_Z 10]);
                          (triangle_b, [Qc_of_Z 5; Qc_of_Z 15])] |}.
Proof. vm_compute. reflexivity. Qed.

(** Two numbers are equal when their values are. *)
Ltac same_number := apply Qc_is_canon; vm_compute; reflexivity.

Lemma returned_row properties k (a a' : num) (w : World) :
  a = a' →
  (Returned [new_row properties k a], w)
  = (Returned [new_row properties k a'], w).
Proof. by intros ->. Qed.

Lemma returned_rows properties k1 k2 (a a' b b' : num) (w : World) :
  a = a' → b = b' →
  (Returned [new_row properties k1 a; new_row properties k2 b], w)
  = (Returned [new_row properties k1 a'; new_row properties k2 b'], w).
Proof. by intros -> ->. Qed.

(** C5, as the claim states it, fails: a feature whose only horizontal ring
    lies at Z=9500 (meters) ends the scan with the running minimum 9000, the
    seed, and not with 9500, the least Z of its kept rings; in relative mode
    its new feature has the height 500, and not 9500 - 9500 = 0.  In feet
    the heights emitted in relative mode are the differences times 0.3048:
    for the parts of maximum Z 10 and 15 over the minimum 5 they are the
    floats 1.524 and 3.048, not 5 and 10. *)
Lemma seed_below_every_ring :
  omap face_z (geometry (single_ring ∅ (Qc_of_Z 9500))) = [Qc_of_Z 9500]
  ∧ running_min "m" (single_ring ∅ (Qc_of_Z 9500)) = Qc_of_Z 9000
  ∧ running_min "m" (single_ring ∅ (Qc_of_Z 9500)) ≠ Qc_of_Z 9500
  ∧ split_feature "m" true (single_ring ∅ (Qc_of_Z 9500)) world0
    = (Returned [new_row ∅ triangle_a (Qc_of_Z 500)], world0)
  ∧ running_min "ft" (two_parts ∅) = Qc_of_Z 5
  ∧ split_feature "ft" true (two_parts ∅) world0
    = (Returned [new_row ∅ triangle_a (py_float (Q2Qc (1524 # 1000)));
                 new_row ∅ triangle_b (py_float (Q2Qc (3048 # 1000)))],
       world0).
Proof.
  split; [vm_compute; reflexivity|].
  unfold running_min. rewrite high_ring_scan, two_parts_scan_ft.
  split; [done|]. split; [done|]. split; [|split; [done|]].
  - rewrite split_feature_run, bool_decide_eq_true_2 by by left.
    unfold feature_rows. rewrite high_ring_scan.
    cbn [part_rows fmap list_fmap min_h building_parts fst snd].
    apply returned_row. same_number.
  - rewrite split_feature_run, bool_decide_eq_true_2 by by right.
    unfold feature_rows. rewrite two_parts_scan_ft.
    cbn [part_rows fmap list_fmap min_h building_parts fst snd].
    apply returned_rows; same_number.
Qed.

(** C5, amended. The running minimum of a feature starts from the seed, 9000
    for 'm' and 30000 for any other unit.  When a kept ring of the feature
    lies at or below the seed, the running minimum at the end of the scan is
    the least Z of the kept rings: it is the Z of one of them and at most
    the Z of each.  In relative mode each new feature then leaves lines
    100-103, before the conversion of units, with the difference, as floats
    subtract, of its height, the maximum Z of its group, and this minimum. *)
Theorem running_min_is_least_kept_z
    (z_unit_in : string) (feature : Feature) (w : World)
    (mp : MultipatchPolygon) (c : Coordinate) :
  mp ∈ geometry feature →
  horizontal_face (ring0 mp) = true →
  c ∈ ring0 mp →
  (cz c ≤ initial_min_h z_unit_in)%Qc →
  initial_min_h "m" = Qc_of_Z 9000
  ∧ (z_unit_in ≠ "m" → initial_min_h z_unit_in = Qc_of_Z 30000)
  ∧ (∃ mp', mp' ∈ geometry feature ∧ horizontal_face (ring0 mp') = true
            ∧ ∀ c', c' ∈ ring0 mp' → cz c' = running_min z_unit_in feature)
  ∧ (∀ mp' c', mp' ∈ geometry feature → horizontal_face (ring0 mp') = true →
       c' ∈ ring0 mp' → (running_min z_unit_in feature ≤ cz c')%Qc)
  ∧ ∃ rows0 rows1,
      emit_parts (properties feature)
        (building_parts (scan_rings z_unit_in (geometry feature))) w
      = (Returned rows0, w)
      ∧ relative_features z_unit_in true feature w = (Returned rows1, w)
      ∧ Forall2
          (height_changed (λ h, py_sub h (running_min z_unit_in feature)))
          rows0 rows1.
Proof.
  intros Hmp Hh Hc Hle.
  split; [done|]. split.
  { intros Hm. unfold initial_min_h.
    by apply String.eqb_neq in Hm as ->. }
  split; [by apply running_min_attained with mp c|].
  split; [apply running_min_le_ring|].
  eexists _, _. split; [apply emit_parts_run, scan_rings_nonempty|].
  split; [apply relative_features_run|].
  unfold relative_to, running_min.
  apply (part_rows_height_changed id).
Qed.

Lemma running_min_is_least_kept_z_witness :
  ∃ mp, mp ∈ geometry (top_bottom_wall ∅)
        ∧ horizontal_face (ring0 mp) = true
        ∧ ∀ c, c ∈ ring0 mp → cz c = running_min "m" (top_bottom_wall ∅).
Proof.
  refine (proj1 (proj2 (proj2
            (running_min_is_least_kept_z "m" (top_bottom_wall ∅) world0
               (polygon_of (flat_ring triangle_a (Qc_of_Z 10)))
               (position 0 0 10) _ _ _ _)))).
  - left.
  - vm_compute. reflexivity.
  - left.
  - vm_compute. discriminate.
Defined.

(** ** Relative heights and units *)

Lemma single_feature_call lib source feature z_unit_in relative_h save
    path filename out_format w :
  valid_units z_unit_in →
  multipatch_convertor lib
    {| gdf_crs := source; gdf_features := [feature] |}
    z_unit_in relative_h save path filename out_format w
  = save_or_return lib source (feature_rows z_unit_in relative_h feature)
      save path filename out_format w.
Proof.
  intros Hu. rewrite convertor_pass by by left.
  unfold all_rows. cbn [gdf_crs gdf_features fmap list_fmap concat].
  by rewrite app_nil_r.
Qed.

Lemma two_parts_feature_rows feature (k1 k2 : XY) (zs1 zs2 : list num) :
  building_parts (scan_rings "m" (geometry feature)) = [(k1, zs1); (k2, zs2)] →
  py_max zs1 = Some (Qc_of_Z 10) →
  py_max zs2 = Some (Qc_of_Z 15) →
  running_min "m" feature = Qc_of_Z 5 →
  feature_rows "m" true feature
  = [new_row (properties feature) k1 (Qc_of_Z 5);
     new_row (properties feature) k2 (Qc_of_Z 10)].
Proof.
  intros Hbp Hz1 Hz2 Hmin.
  unfold feature_rows. unfold running_min in Hmin. rewrite Hbp, Hmin.
  unfold part_rows, max_of. cbn [fmap list_fmap fst snd].
  rewrite Hz1, Hz2. unfold unit_factor, relative_to.
  cbn [String.eqb Ascii.eqb Bool.eqb default]. unfold id.
  assert (py_sub (Qc_of_Z 10) (Qc_of_Z 5) = Qc_of_Z 5) as -> by same_number.
  by assert (py_sub (Qc_of_Z 15) (Qc_of_Z 5) = Qc_of_Z 10) as ->
    by same_number.
Qed.

(** C6. A feature in meters whose scan ends with two building parts, of
    maximum Z 10 and 15, and with the minimum Z 5, yields with
    [relative_h=True] two new features, of heights 5 and 10 in this order
    (the differences of these floats are exact); in the call on the frame of
    this feature, these two rows are the list that lines 118-139 build the
    frame from, return it or save it. *)
Theorem relative_heights_of_two_parts
    (feature : Feature) (k1 k2 : XY) (zs1 zs2 : list num) (w : World) :
  building_parts (scan_rings "m" (geometry feature)) = [(k1, zs1); (k2, zs2)] →
  py_max zs1 = Some (Qc_of_Z 10) →
  py_max zs2 = Some (Qc_of_Z 15) →
  running_min "m" feature = Qc_of_Z 5 →
  split_feature "m" true feature w
  = (Returned [new_row (properties feature) k1 (Qc_of_Z 5);
               new_row (properties feature) k2 (Qc_of_Z 10)], w)
  ∧ ∀ lib source save path filename out_format,
      multipatch_convertor lib
        {| gdf_crs := source; gdf_features := [feature] |}
        "m" true save path filename out_format w
      = save_or_return lib source
          [new_row (properties feature) k1 (Qc_of_Z 5);
           new_row (properties feature) k2 (Qc_of_Z 10)]
          save path filename out_format w.
Proof.
  intros Hbp Hz1 Hz2 Hmin.
  pose proof (two_parts_feature_rows feature k1 k2 zs1 zs2 Hbp Hz1 Hz2 Hmin)
    as Hrows.
  split.
  - rewrite split_feature_run, bool_decide_eq_true_2 by by left.
    by rewrite Hrows.
  - intros. rewrite single_feature_call by by left. by rewrite Hrows.
Qed.

Lemma relative_heights_of_two_parts_witness :
  split_feature "m" true (two_parts ∅) world0
  = (Returned [new_row ∅ triangle_a (Qc_of_Z 5);
               new_row ∅ triangle_b (Qc_of_Z 10)], world0).
Proof.
  apply (relative_heights_of_two_parts (two_parts ∅) triangle_a triangle_b
           [Qc_of_Z 5; Qc_of_Z 10] [Qc_of_Z 5; Qc_of_Z 15] world0).
  - vm_compute. reflexivity.
  - vm_compute. reflexivity.
  - vm_compute. reflexivity.
  - vm_compute. reflexivity.
Defined.

Lemma single_kept_ring_scan z_unit_in polygons mp z :
  filter (λ mp, horizontal_face (ring0 mp)) polygons = [mp] →
  ring_z (ring0 mp) = Some z →
  building_parts (scan_rings z_unit_in polygons) = [(xy_of (ring0 mp), [z])].
Proof.
  intros Hf Hz. unfold scan_rings. rewrite <-scan_horizontal_only, Hf.
  assert (mp ∈ filter (λ mp, horizontal_face (ring0 mp)) polygons) as Hin
    by (rewrite Hf; left).
  apply list_elem_of_filter in Hin as [Hh%Is_true_true _].
  simpl. rewrite (scan_polygon_kept _ _ z); [done|].
  unfold face_z. by rewrite Hh.
Qed.

Lemma single_ring_feet_rows feature mp z :
  filter (λ mp, horizontal_face (ring0 mp)) (geometry feature) = [mp] →
  ring_z (ring0 mp) = Some z →
  feature_rows "ft" false feature
  = [new_row (properties feature) (xy_of (ring0 mp)) (py_mul z FT_TO_M)].
Proof.
  intros Hf Hz. unfold feature_rows.
  by rewrite (single_kept_ring_scan _ _ mp z) by done.
Qed.

(** The subtraction and the product are those of floats.  The float 0.3048
    is not the number 3048/10000, and a single ring at Z=3, converted from
    feet, yields the height that Python prints as 0.9144000000000001, which
    is neither the number 0.9144 nor the float 0.9144; the difference of the
    floats 100.1 and 0.3 is the float nearest to their difference, which
    their difference is not. *)
Lemma float_operations_are_rounded :
  FT_TO_M ≠ Q2Qc (3048 # 10000)
  ∧ py_sub (py_float (Q2Qc (1001 # 10))) (py_float (Q2Qc (3 # 10)))
    ≠ (py_float (Q2Qc (1001 # 10)) - py_float (Q2Qc (3 # 10)))%Qc
  ∧ split_feature "ft" false (single_ring ∅ (Qc_of_Z 3)) world0
    = (Returned
         [new_row ∅ triangle_a
            (py_float (Q2Qc (9144000000000001 # 10000000000000000)))],
       world0)
  ∧ py_float (Q2Qc (9144000000000001 # 10000000000000000))
    ≠ Q2Qc (9144 # 10000)
  ∧ py_float (Q2Qc (9144000000000001 # 10000000000000000))
    ≠ py_float (Q2Qc (9144 # 10000)).
Proof.
  split; [|split; [|split; [|split]]].
  - intros Heq. apply (f_equal this) in Heq. vm_compute in Heq.
    discriminate Heq.
  - intros Heq. apply (f_equal this) in Heq. vm_compute in Heq.
    discriminate Heq.
  - rewrite split_feature_run, bool_decide_eq_true_2 by by right.
    rewrite (single_ring_feet_rows _
               (polygon_of (flat_ring triangle_a (Qc_of_Z 3))) (Qc_of_Z 3))
      by (vm_compute; reflexivity).
    apply returned_row. same_number.
  - intros Heq. apply (f_equal this) in Heq. vm_compute in Heq.
    discriminate Heq.
  - intros Heq. apply (f_equal this) in Heq. vm_compute in Heq.
    discriminate Heq.
Qed.

(** C7. With ['ft'] the conversion of units (lines 106-108) leaves every new
    feature with its height multiplied by 0.3048: the product, as floats
    multiply, of its height and the float 0.3048, which is the float nearest
    to the product of the two.  With
    ['m'] it leaves the new features as they are.  A feature whose only kept
    ring lies at Z=100, converted from feet without the relative adjustment,
    yields one new feature, of the height 100 * 0.3048, which is the float
    30.48; in the call on the frame of this feature, this row is the list
    that lines 118-139 build the frame from. *)
Theorem feet_are_scaled_by_0_3048
    (relative_h : bool) (feature : Feature) (w : World) :
  FT_TO_M = binary64 (Q2Qc (3048 # 10000))
  ∧ (∀ h, py_mul h FT_TO_M = binary64 (h * FT_TO_M)%Qc)
  ∧ (∃ rows0 rows1,
       relative_features "ft" relative_h feature w = (Returned rows0, w)
       ∧ split_feature "ft" relative_h feature w = (Returned rows1, w)
       ∧ Forall2 (height_changed (λ h, py_mul h FT_TO_M)) rows0 rows1)
  ∧ split_feature "m" relative_h feature w
    = relative_features "m" relative_h feature w
  ∧ py_mul (Qc_of_Z 100) FT_TO_M = py_float (Q2Qc (3048 # 100))
  ∧ (∀ mp,
       filter (λ mp, horizontal_face (ring0 mp)) (geometry feature) = [mp] →
       ring_z (ring0 mp) = Some (Qc_of_Z 100) →
       split_feature "ft" false feature w
       = (Returned [new_row (properties feature) (xy_of (ring0 mp))
                      (py_float (Q2Qc (3048 # 100)))], w)
       ∧ ∀ lib source save path filename out_format,
           multipatch_convertor lib
             {| gdf_crs := source; gdf_features := [feature] |}
             "ft" false save path filename out_format w
           = save_or_return lib source
               [new_row (properties feature) (xy_of (ring0 mp))
                  (py_float (Q2Qc (3048 # 100)))]
               save path filename out_format w).
Proof.
  assert (py_mul (Qc_of_Z 100) FT_TO_M = py_float (Q2Qc (3048 # 100)))
    as Hundred by same_number.
  split; [done|]. split; [done|]. split; [|split; [|split; [done|]]].
  - eexists _, _. split; [apply relative_features_run|].
    split; [rewrite split_feature_run;
            by rewrite bool_decide_eq_true_2 by by right|].
    unfold feature_rows, unit_factor. cbn [String.eqb Ascii.eqb Bool.eqb].
    apply part_rows_height_changed.
  - rewrite split_feature_run, bool_decide_eq_true_2 by by left.
    by rewrite relative_features_run.
  - intros mp Hf Hz.
    pose proof (single_ring_feet_rows feature mp _ Hf Hz) as Hrows.
    rewrite Hundred in Hrows. split.
    + rewrite split_feature_run, bool_decide_eq_true_2 by by right.
      by rewrite Hrows.
    + intros. rewrite single_feature_call by by right. by rewrite Hrows.
Qed.

Lemma feet_are_scaled_by_0_3048_witness :
  split_feature "ft" false (single_ring ∅ (Qc_of_Z 100)) world0
  = (Returned [new_row ∅ triangle_a (py_float (Q2Qc (3048 # 100)))], world0).
Proof.
  apply (proj2 (proj2 (proj2 (proj2 (proj2
           (feet_are_scaled_by_0_3048 false (single_ring ∅ (Qc_of_Z 100))
              world0)))))
           (polygon_of (flat_ring triangle_a (Qc_of_Z 100)))).
  - vm_compute. reflexivity.
  - vm_compute. reflexivity.
Defined.

(** ** The outcomes of a call *)


Lemma stand_in_builds rows index crs :
  rows ≠ [] →
  new_frame stand_in rows index crs
  = Returned {| rows := rows; index := index; crs := crs |}.
Proof. by destruct rows. Qed.



(** C9. No call prints: the standard output after a call is the standard
    output before it, so neither of the two [print] statements that follow a
    [raise] (lines 113 and 137) is ever run.  Where the error of the units
    is raised, in the conversion of the units of a feature and so in a call
    on a frame with a feature, and where the error of the format is raised,
    in a call that has built its frame, the world is left as it was. *)
Theorem diagnostics_are_never_printed lib geodataframe z_unit_in
    relative_h save path filename out_format w :
  stdout (multipatch_convertor lib geodataframe z_unit_in relative_h
            save path filename out_format w).2
  = stdout w
  ∧ (gdf_features geodataframe ≠ [] → ¬ valid_units z_unit_in →
     multipatch_convertor lib geodataframe z_unit_in relative_h save
       path filename out_format w
     = (Raised (NameError "wrongUnits"), w))
  ∧ (∀ rows, ¬ valid_units z_unit_in →
       convert_units z_unit_in rows w = (Raised (NameError "wrongUnits"), w))
  ∧ (∀ crs rows built frame,
       ¬ valid_format out_format →
       new_frame lib rows (seq 0 (length rows)) crs = Returned built →
       to_crs lib (Epsg 4326) built = Returned frame →
       save_or_return lib crs rows true path filename out_format w
       = (Raised (NameError "wrongFormat"), w)).
Proof.
  split; [|split; [|split]].
  - destruct (units_pass_or_not z_unit_in geodataframe) as [Hu|Hu].
    + rewrite convertor_pass by done. apply save_or_return_stdout.
    + by rewrite convertor_wrong_units.
  - intros Hne Hu. apply convertor_wrong_units. by intros [?|?].
  - intros rows Hu. unfold convert_units.
    destruct (z_unit_in =? "ft")%string eqn:Hft.
    { apply String.eqb_eq in Hft. exfalso. apply Hu. by right. }
    destruct (z_unit_in =? "m")%string eqn:Hm.
    { apply String.eqb_eq in Hm. exfalso. apply Hu. by left. }
    done.
  - intros crs rows built frame Hf Hn Ht.
    by eapply save_or_return_wrong_format.
Qed.

Lemma diagnostics_are_never_printed_witness :
  convert_units "yd" [] world0 = (Raised (NameError "wrongUnits"), world0).
Proof.
  apply (proj1 (proj2 (proj2
           (diagnostics_are_never_printed stand_in (wgs84_frame [])
              "yd" false false "./" "output" "geojson" world0))) []).
  intros [?|?]; discriminate.
Defined.

(** C10, as the claim states it, fails: a call that asks to save with a valid
    format but with the unit 'yd' on a frame with a feature raises the error
    of the units and makes no call of [to_file], and the same call without
    [save] returns no frame; and on a frame without reference system the
    call with the unit 'm' ends in the ValueError of [to_crs], with [save]
    and without. *)
Lemma saving_needs_valid_units :
  multipatch_convertor stand_in (wgs84_frame [top_bottom_wall ∅])
    "yd" false true "./" "output" "geojson" world0
  = (Raised (NameError "wrongUnits"), world0)
  ∧ to_file_calls world0 = []
  ∧ multipatch_convertor stand_in (wgs84_frame [top_bottom_wall ∅])
      "yd" false false "./" "output" "geojson" world0
    = (Raised (NameError "wrongUnits"), world0)
  ∧ (∃ msg,
       multipatch_convertor stand_in (naive_frame [top_bottom_wall ∅])
         "m" false true "./" "output" "geojson" world0
       = (Raised (ValueError msg), world0))
  ∧ ∃ msg,
      multipatch_convertor stand_in (naive_frame [top_bottom_wall ∅])
        "m" false false "./" "output" "geojson" world0
      = (Raised (ValueError msg), world0).
Proof.
  split; [|split; [done|split; [|split]]].
  - apply convertor_wrong_units. intros [[?|?]|?]; discriminate.
  - apply convertor_wrong_units. intros [[?|?]|?]; discriminate.
  - eexists. rewrite convertor_pass by (left; by left).
    unfold naive_frame. rewrite top_bottom_wall_all_rows.
    by eapply save_or_return_no_to_crs.
  - eexists. rewrite convertor_pass by (left; by left).
    unfold naive_frame. rewrite top_bottom_wall_all_rows.
    by eapply save_or_return_no_to_crs.
Qed.

(** C10, amended. Of a call with the unit 'm' or 'ft' in which the library
    builds the frame and takes it to WGS 84 without raising (lines 119-125):
    with [save] on and the format 'geojson' or 'shp' it calls [to_file] once,
    on this frame, with the path, the file name and the extension of the
    format for a name and with the driver of the format, and it returns
    [None] when [to_file] returns, and raises what [to_file] raises
    otherwise; and it returns a frame, this frame, if and only if [save] is
    off. *)
Theorem save_writes_a_file_and_returns_none lib geodataframe z_unit_in
    relative_h save path filename out_format w built frame :
  valid_units z_unit_in →
  new_frame lib (all_rows z_unit_in relative_h geodataframe)
    (seq 0 (length (all_rows z_unit_in relative_h geodataframe)))
    (gdf_crs geodataframe) = Returned built →
  to_crs lib (Epsg 4326) built = Returned frame →
  (save = true → valid_format out_format →
   ∃ name driver,
     multipatch_convertor lib geodataframe z_unit_in relative_h save
       path filename out_format w
     = (none_when_written (write_file lib frame name driver),
        with_call w frame name driver)
     ∧ (out_format = "geojson" ∧ name = path +:+ filename +:+ ".geojson"
        ∧ driver = "GeoJSON"
        ∨ out_format = "shp" ∧ name = path +:+ filename +:+ ".shp"
          ∧ driver = "ESRI Shapefile")
     ∧ (write_file lib frame name driver = Returned () →
        multipatch_convertor lib geodataframe z_unit_in relative_h save
          path filename out_format w
        = (Returned None, with_call w frame name driver)))
  ∧ ((∃ frame',
        (multipatch_convertor lib geodataframe z_unit_in relative_h save
           path filename out_format w).1 = Returned (Some frame'))
     ↔ save = false)
  ∧ (save = false →
     multipatch_convertor lib geodataframe z_unit_in relative_h save
       path filename out_format w
     = (Returned (Some frame), w)).
Proof.
  intros Hv Hn Ht. rewrite !convertor_pass by by left.
  destruct save.
  - destruct (decide (out_format = "geojson")) as [->|Hg];
      [|destruct (decide (out_format = "shp")) as [->|Hs]].
    + rewrite (save_or_return_geojson _ _ _ _ _ _ built frame) by done.
      split; [|split; [|done]].
      * intros _ _. eexists _, _. split; [done|]. split; [by left|].
        by intros ->.
      * split; [|done]. intros [frame' Hf]. cbn [fst] in Hf.
        by destruct (write_file lib frame _ _).
    + rewrite (save_or_return_shp _ _ _ _ _ _ built frame) by done.
      split; [|split; [|done]].
      * intros _ _. eexists _, _. split; [done|]. split; [by right|].
        by intros ->.
      * split; [|done]. intros [frame' Hf]. cbn [fst] in Hf.
        by destruct (write_file lib frame _ _).
    + rewrite (save_or_return_wrong_format _ _ _ _ _ _ _ built frame)
        by (done || by intros [?|?]).
      split; [by intros _ [?|?]|]. split; [|done].
      split; [by intros [frame' [=]] | done].
  - rewrite (save_or_return_in_memory _ _ _ _ _ _ _ built frame) by done.
    split; [done|]. split; [|done]. split; [done|eauto].
Qed.

Lemma save_writes_a_file_and_returns_none_witness :
  valid_units "m"
  ∧ multipatch_convertor stand_in (wgs84_frame [top_bottom_wall ∅])
      "m" false true "./" "output" "shp" world0
    = (Returned None,
       with_call world0
         {| rows := [new_row ∅ triangle_a (Qc_of_Z 10)];
            index := [0%nat]; crs := Epsg 4326 |}
         "./output.shp" "ESRI Shapefile").
Proof.
  assert (valid_units "m") as Hu by (left; reflexivity).
  split; [exact Hu|].
  destruct (proj1 (save_writes_a_file_and_returns_none stand_in
                     (wgs84_frame [top_bottom_wall ∅]) "m" false true
                     "./" "output" "shp" world0
                     {| rows := [new_row ∅ triangle_a (Qc_of_Z 10)];
                        index := [0%nat]; crs := Epsg 4326 |}
                     {| rows := [new_row ∅ triangle_a (Qc_of_Z 10)];
                        index := [0%nat]; crs := Epsg 4326 |} Hu
                     ltac:(unfold wgs84_frame;
                           rewrite top_bottom_wall_all_rows; reflexivity)
                     eq_refl)
              eq_refl (or_intror eq_refl))
    as (name & driver & _ & [(Hf & _)|(_ & -> & ->)] & Hnone).
  - discriminate Hf.
  - apply Hnone. reflexivity.
Defined.

(** * Further properties of the conversion *)

(** ** Errors and effects *)

(** X1. With a frame of at least one feature, a unit other than 'm' and 'ft'
    ends the call with NameError 'wrongUnits' whatever [relative_h], [save]
    and [out_format] are, the format 'kml' included: the check of the units
    comes before the format is looked at, and the world is left as it was,
    no file written. *)
Theorem wrong_units_come_first lib geodataframe z_unit_in relative_h save
    path filename out_format w :
  gdf_features geodataframe ≠ [] →
  ¬ valid_units z_unit_in →
  multipatch_convertor lib geodataframe z_unit_in relative_h save
    path filename out_format w
  = (Raised (NameError "wrongUnits"), w).
Proof.
  intros Hne Hu. apply convertor_wrong_units. by intros [?|?].
Qed.

Lemma wrong_units_come_first_witness :
  multipatch_convertor stand_in (state_plane_frame [top_bottom_wall ∅])
    "yd" true true "./" "output" "kml" world0
  = (Raised (NameError "wrongUnits"), world0).
Proof.
  apply wrong_units_come_first.
  - discriminate.
  - intros [?|?]; discriminate.
Defined.

(** X2. A call without [save] has no effect on the world, whether it returns
    or raises, and its outcome does not depend on [path], [filename] and
    [out_format]. *)
Theorem in_memory_call_has_no_effect lib geodataframe z_unit_in
    relative_h path filename out_format w :
  (multipatch_convertor lib geodataframe z_unit_in relative_h false
     path filename out_format w).2 = w
  ∧ ∀ path' filename' out_format',
      multipatch_convertor lib geodataframe z_unit_in relative_h false
        path' filename' out_format' w
      = multipatch_convertor lib geodataframe z_unit_in relative_h false
          path filename out_format w.
Proof.
  assert (∀ source feature_list p f o p' f' o',
            save_or_return lib source feature_list false p f o w
            = save_or_return lib source feature_list false p' f' o' w)
    as Hsame.
  { intros source feature_list p f o p' f' o'.
    unfold save_or_return, mbind, Py_bind, py_call.
    destruct (new_frame lib feature_list _ source) as [built|e]; [|done].
    by destruct (to_crs lib WGS84 built). }
  assert (∀ source feature_list p f o,
            (save_or_return lib source feature_list false p f o w).2 = w)
    as Hworld.
  { intros source feature_list p f o.
    unfold save_or_return, mbind, Py_bind, py_call.
    destruct (new_frame lib feature_list _ source) as [built|e]; [|done].
    by destruct (to_crs lib WGS84 built). }
  destruct (units_pass_or_not z_unit_in geodataframe) as [Hu|Hu].
  - split; [by rewrite convertor_pass|].
    intros. rewrite !convertor_pass by done. apply Hsame.
  - split; [by rewrite convertor_wrong_units|].
    intros. by rewrite !convertor_wrong_units.
Qed.

(** X3. A call calls [to_file] at most once, and only with [save] on and
    the format 'geojson' or 'shp'; the name it passes is the path, the file
    name, a dot and the format, in this order and with nothing between
    them.  The calls recorded before it stay as they are. *)
Theorem at_most_one_file_is_written lib geodataframe z_unit_in
    relative_h save path filename out_format w :
  to_file_calls
    (multipatch_convertor lib geodataframe z_unit_in relative_h
       save path filename out_format w).2 = to_file_calls w
  ∨ (save = true ∧ valid_format out_format
     ∧ ∃ driver frame,
         to_file_calls
           (multipatch_convertor lib geodataframe z_unit_in
              relative_h save path filename out_format w).2
         = to_file_calls w ++
             [{| call_frame := frame;
                 call_name := path +:+ filename +:+ "." +:+ out_format;
                 call_driver := driver |}]).
Proof.
  destruct (units_pass_or_not z_unit_in geodataframe) as [Hu|Hu].
  2:{ left. by rewrite convertor_wrong_units. }
  rewrite convertor_pass by done.
  destruct (save_or_return_cases lib (gdf_crs geodataframe)
              (all_rows z_unit_in relative_h geodataframe)
              save path filename out_format w)
    as [(e & _ & ->)|(built & Hn & [(e & _ & ->)|(frame & Ht &
         [(_ & ->)|[(Hs & -> & ->)|[(Hs & -> & ->)|(_ & _ & ->)]]])])];
    try (by left).
  - right. split; [done|]. split; [by left|]. by eexists _, _.
  - right. split; [done|]. split; [by right|]. by eexists _, _.
Qed.

(** ** Which rings count *)

Lemma scan_outer_rings_only polygons st :
  fold_left scan_polygon ((λ mp, polygon_of (ring0 mp)) <$> polygons) st
  = fold_left scan_polygon polygons st.
Proof.
  revert st. induction polygons as [|mp polygons IH]; intros st; [done|].
  rewrite fmap_cons. cbn [fold_left]. rewrite IH. done.
Qed.

Lemma feature_loop_outer_rings_only z_unit_in relative_h features acc w :
  py_for (outer_rings_only <$> features)
    (λ feature_list feature,
       splitted_feature_list ← split_feature z_unit_in relative_h feature;
       mret (feature_list ++ splitted_feature_list)) acc w
  = py_for features
      (λ feature_list feature,
         splitted_feature_list ← split_feature z_unit_in relative_h feature;
         mret (feature_list ++ splitted_feature_list)) acc w.
Proof.
  revert acc w. induction features as [|f features IH]; intros acc w; [done|].
  rewrite fmap_cons. cbn [py_for].
  assert (split_feature z_unit_in relative_h (outer_rings_only f)
          = split_feature z_unit_in relative_h f) as ->.
  { unfold split_feature, relative_features, outer_rings_only, scan_rings.
    cbn [properties geometry]. by rewrite scan_outer_rings_only. }
  apply py_bind_ext. intros fl w'. apply IH.
Qed.

(** X4. Of each polygon of a geometry only the first ring is read
    ([multipatch_polygon[0]]): the rings after it, the holes of the polygon,
    change nothing, neither in the outcome of a feature nor in that of the
    call. *)
Theorem inner_rings_are_ignored lib geodataframe z_unit_in relative_h
    save path filename out_format w :
  (∀ feature,
     split_feature z_unit_in relative_h (outer_rings_only feature) w
     = split_feature z_unit_in relative_h feature w)
  ∧ multipatch_convertor lib
      {| gdf_crs := gdf_crs geodataframe;
         gdf_features := outer_rings_only <$> gdf_features geodataframe |}
      z_unit_in relative_h save path filename out_format w
    = multipatch_convertor lib geodataframe
        z_unit_in relative_h save path filename out_format w.
Proof.
  split.
  - intros feature.
    unfold split_feature, relative_features, outer_rings_only, scan_rings.
    cbn [properties geometry]. by rewrite scan_outer_rings_only.
  - unfold multipatch_convertor, convert_features.
    cbn [gdf_crs gdf_features].
    apply py_bind_congr, feature_loop_outer_rings_only.
Qed.

Lemma feature_rows_nil z_unit_in relative_h feature :
  feature_rows z_unit_in relative_h feature = [] ↔
  ∀ mp, mp ∈ geometry feature → horizontal_face (ring0 mp) = false.
Proof.
  unfold feature_rows, part_rows. split.
  - intros Hnil%fmap_nil_inv mp Hmp. apply not_true_is_false. intros Hh.
    assert (xy_of (ring0 mp)
            ∈ OrderedDict.keys
                (building_parts (scan_rings z_unit_in (geometry feature))))
      as Hin by (apply scan_rings_keys; eauto).
    rewrite Hnil in Hin. inversion Hin.
  - intros Hall.
    destruct (building_parts (scan_rings z_unit_in (geometry feature)))
      as [|[k zs] bp] eqn:Hbp; [done|]. exfalso.
    assert (k ∈ OrderedDict.keys
                  (building_parts (scan_rings z_unit_in (geometry feature))))
      as Hin by (rewrite Hbp; left).
    apply scan_rings_keys in Hin as (mp & Hmp & Hh & _).
    rewrite (Hall mp Hmp) in Hh. done.
Qed.

(** X5. A feature yields no new feature exactly when none of its rings is a
    horizontal face: its properties then appear nowhere in the output. *)
Theorem feature_without_horizontal_ring_is_dropped
    z_unit_in relative_h feature w :
  valid_units z_unit_in →
  split_feature z_unit_in relative_h feature w = (Returned [], w) ↔
  ∀ mp, mp ∈ geometry feature → horizontal_face (ring0 mp) = false.
Proof.
  intros Hu. rewrite split_feature_run, bool_decide_eq_true_2 by done.
  rewrite <-feature_rows_nil. split; [by intros [= ->] | by intros ->].
Qed.

Lemma feature_without_horizontal_ring_is_dropped_witness :
  split_feature "m" false (wall_only ∅) world0 = (Returned [], world0).
Proof.
  apply (feature_without_horizontal_ring_is_dropped "m" false (wall_only ∅)
           world0).
  - left. reflexivity.
  - intros mp [->|Hin]%elem_of_cons; [vm_compute; reflexivity|].
    inversion Hin.
Defined.

(** ** Heights *)

Lemma part_row_elem op properties (bp : list (XY * list num)) row :
  row ∈ part_rows op properties bp ↔
  ∃ k zs, (k, zs) ∈ bp ∧ row = new_row properties k (op (max_of zs)).
Proof.
  unfold part_rows. rewrite list_elem_of_fmap. split.
  - intros [[k zs] [-> Hin]]. eauto.
  - intros (k & zs & Hin & ->). by exists (k, zs).
Qed.

Lemma running_min_le_max z_unit_in feature k zs :
  (k, zs) ∈ building_parts (scan_rings z_unit_in (geometry feature)) →
  (running_min z_unit_in feature ≤ max_of zs)%Qc.
Proof.
  intros Hin. destruct (recorded_max _ _ _ _ Hin) as [(mp & Hmp & Hh & _ & Hz) _].
  assert (∃ c0, c0 ∈ ring0 mp) as [c0 Hc0].
  { pose proof Hh as [Hlen _]%horizontal_face_spec.
    destruct (ring0 mp) as [|c0 r]; [simpl in Hlen; lia | exists c0; left]. }
  rewrite <-(Hz c0 Hc0). by apply running_min_le_ring with mp.
Qed.

Lemma round_half_even_nonneg (N D : Z) :
  (0 ≤ N)%Z → (0 < D)%Z → (0 ≤ round_half_even N D)%Z.
Proof.
  intros HN HD. unfold round_half_even.
  pose proof (Z.div_pos N D HN HD).
  destruct (2 * (N mod D) ?= D)%Z; [destruct (Z.even (N / D))|..]; lia.
Qed.

Lemma binary64_pos_nonneg (n d : positive) : (0 <= binary64_pos n d)%Q.
Proof.
  unfold binary64_pos. set (e := Z.max (magnitude n d - 52) (-1074)).
  destruct (0 <=? e)%Z eqn:He.
  - apply Z.leb_le in He.
    assert (0 < 2 ^ e)%Z as Hp by by apply Z.pow_pos_nonneg.
    pose proof (round_half_even_nonneg (Z.pos n) (Z.pos d * 2 ^ e)) as Hr.
    unfold Qle, inject_Z. cbn [Qnum Qden]. nia.
  - assert (0 ≤ 2 ^ (- e))%Z as Hp by by apply Z.pow_nonneg.
    pose proof (round_half_even_nonneg (Z.pos n * 2 ^ (- e)) (Z.pos d)) as Hr.
    unfold Qle. cbn [Qnum Qden]. nia.
Qed.

Lemma binary64_nonneg (q : num) : (0 ≤ q)%Qc → (0 ≤ binary64 q)%Qc.
Proof.
  intros Hq. unfold binary64. destruct q as [[qn qd] Hcanon].
  unfold Qcle in Hq. cbn [this Qnum Qden] in *. destruct qn as [|n|n].
  - done.
  - unfold Qcle. change (0 <= Qred (binary64_pos n qd))%Q.
    rewrite Qred_correct. apply binary64_pos_nonneg.
  - exfalso. by apply Hq.
Qed.

Lemma unit_factor_nonneg z_unit_in h : (0 ≤ h)%Qc → (0 ≤ unit_factor z_unit_in h)%Qc.
Proof.
  intros Hh. unfold unit_factor. destruct (z_unit_in =? "ft")%string; [|done].
  apply binary64_nonneg.
  rewrite <-(Qcmult_0_l FT_TO_M). apply Qcmult_le_compat_r; [done|].
  vm_compute. discriminate.
Qed.

(** X6. In relative mode no new feature has a negative height, in meters and
    in feet, the running minimum being at most the Z of every kept ring. *)
Theorem relative_heights_are_not_negative z_unit_in feature w :
  valid_units z_unit_in →
  ∃ rows,
    split_feature z_unit_in true feature w = (Returned rows, w)
    ∧ Forall (λ row : Row, ∃ h, row !! "height" = Some (VNum h) ∧ (0 ≤ h)%Qc)
        rows.
Proof.
  intros Hu. eexists. split.
  { rewrite split_feature_run. by rewrite bool_decide_eq_true_2 by done. }
  apply Forall_forall. intros row (k & zs & Hin & ->)%part_row_elem.
  eexists. split; [apply new_row_lookup|].
  apply unit_factor_nonneg. unfold relative_to. apply binary64_nonneg.
  apply (proj1 (Qcle_minus_iff (running_min z_unit_in feature) (max_of zs))).
  by apply (running_min_le_max z_unit_in feature k).
Qed.

Lemma relative_heights_are_not_negative_witness :
  ∃ rows,
    split_feature "ft" true (two_parts ∅) world0 = (Returned rows, world0)
    ∧ Forall (λ row : Row, ∃ h, row !! "height" = Some (VNum h) ∧ (0 ≤ h)%Qc)
        rows.
Proof.
  apply relative_heights_are_not_negative. right. reflexivity.
Defined.

(** ** The order of the rings *)

Lemma max_of_Permutation zs zs' : zs ≡ₚ zs' → max_of zs = max_of zs'.
Proof.
  intros Hp. destruct zs as [|z zs].
  { apply Permutation_nil_l in Hp as <-. done. }
  destruct zs' as [|z' zs'].
  { by apply Permutation_nil_r in Hp. }
  pose proof (py_max_nonempty (z :: zs)) as H1.
  pose proof (py_max_nonempty (z' :: zs')) as H2.
  apply py_max_spec in H1 as [Hin1 Hub1]; [|done].
  apply py_max_spec in H2 as [Hin2 Hub2]; [|done].
  apply Qcle_antisym.
  - apply Hub2. by rewrite <-Hp.
  - apply Hub1. by rewrite Hp.
Qed.

Lemma fold_py_min_Permutation zs zs' a :
  zs ≡ₚ zs' → fold_left py_min zs a = fold_left py_min zs' a.
Proof.
  intros Hp.
  assert (∀ l l', l ≡ₚ l' →
            (fold_left py_min l a ≤ fold_left py_min l' a)%Qc) as Hle.
  { intros l l' Hll.
    destruct (fold_py_min_cases l' a) as [->|Hin].
    - apply fold_py_min_le_init.
    - apply fold_py_min_le_elem. by rewrite Hll. }
  apply Qcle_antisym; by apply Hle.
Qed.

Lemma scan_rings_Permutation_elem z_unit_in polygons polygons' k zs :
  polygons ≡ₚ polygons' →
  (k, zs) ∈ building_parts (scan_rings z_unit_in polygons) →
  ∃ zs', (k, zs') ∈ building_parts (scan_rings z_unit_in polygons')
         ∧ zs ≡ₚ zs'.
Proof.
  intros Hp [Hne ->]%scan_rings_lookup.
  exists (omap (kept_z k) polygons').
  assert (omap (kept_z k) polygons ≡ₚ omap (kept_z k) polygons') as Hz
    by by rewrite Hp.
  split; [|done]. apply scan_rings_lookup. split; [|done].
  intros Hnil. rewrite Hnil in Hz. by apply Permutation_nil_r in Hz.
Qed.

Lemma feature_rows_NoDup z_unit_in relative_h feature :
  NoDup (feature_rows z_unit_in relative_h feature).
Proof.
  unfold feature_rows, part_rows.
  apply (NoDup_fmap_1 (λ row : Row, row !! "geometry")).
  rewrite <-list_fmap_compose.
  assert (((λ row : Row, row !! "geometry")
           ∘ (λ item : XY * list num,
                new_row (properties feature) item.1
                  (unit_factor z_unit_in
                     (relative_to relative_h
                        (min_h (scan_rings z_unit_in (geometry feature)))
                        (max_of item.2)))))
          <$> building_parts (scan_rings z_unit_in (geometry feature))
          = (λ k, Some (VPolygon k))
            <$> OrderedDict.keys
                  (building_parts (scan_rings z_unit_in (geometry feature))))
    as ->.
  { unfold OrderedDict.keys. rewrite <-list_fmap_compose.
    apply list_fmap_ext. intros i [k zs] _. simpl. apply new_row_lookup. }
  apply NoDup_fmap_2.
  - intros k k' [=]. done.
  - apply scan_keys_NoDup. simpl. apply NoDup_nil_2.
Qed.

Lemma feature_rows_Permutation_elem z_unit_in relative_h feature feature' row :
  properties feature = properties feature' →
  geometry feature ≡ₚ geometry feature' →
  row ∈ feature_rows z_unit_in relative_h feature →
  row ∈ feature_rows z_unit_in relative_h feature'.
Proof.
  intros Hprop Hp. unfold feature_rows.
  intros (k & zs & Hin & ->)%part_row_elem.
  destruct (scan_rings_Permutation_elem _ _ _ _ _ Hp Hin) as (zs' & Hin' & Hz).
  apply part_row_elem. exists k, zs'. split; [done|].
  rewrite Hprop, (max_of_Permutation _ _ Hz). do 3 f_equal.
  unfold scan_rings. rewrite !scan_min_h. simpl.
  apply fold_py_min_Permutation. by rewrite Hp.
Qed.

(** X7. The order of the rings of a feature decides the order of its new
    features and nothing else: two features with the same properties and the
    same rings in different orders yield the same new features, each once,
    in some order. *)
Theorem ring_order_only_orders_the_rows
    z_unit_in relative_h feature feature' w :
  valid_units z_unit_in →
  properties feature = properties feature' →
  geometry feature ≡ₚ geometry feature' →
  ∃ rows rows',
    split_feature z_unit_in relative_h feature w = (Returned rows, w)
    ∧ split_feature z_unit_in relative_h feature' w = (Returned rows', w)
    ∧ NoDup rows ∧ rows ≡ₚ rows'.
Proof.
  intros Hu Hprop Hp. eexists _, _.
  split; [rewrite split_feature_run; by rewrite bool_decide_eq_true_2|].
  split; [rewrite split_feature_run; by rewrite bool_decide_eq_true_2|].
  split; [apply feature_rows_NoDup|].
  apply NoDup_Permutation; [apply feature_rows_NoDup..|].
  intros row. split; apply feature_rows_Permutation_elem; done.
Qed.

Lemma ring_order_only_orders_the_rows_witness :
  ∃ rows rows',
    split_feature "m" true (top_bottom_wall ∅) world0 = (Returned rows, world0)
    ∧ split_feature "m" true (wall_bottom_top ∅) world0
      = (Returned rows', world0)
    ∧ NoDup rows ∧ rows ≡ₚ rows'.
Proof.
  apply ring_order_only_orders_the_rows.
  - left. reflexivity.
  - reflexivity.
  - change (geometry (wall_bottom_top ∅))
      with (reverse (geometry (top_bottom_wall ∅))).
    symmetry. apply reverse_Permutation.
Defined.

Lemma first_occurrences_snoc (l : list XY) (k : XY) :
  first_occurrences (l ++ [k])
  = if decide (k ∈ l) then first_occurrences l else first_occurrences l ++ [k].
Proof.
  induction l as [|x l IH]; [done|].
  cbn [app first_occurrences]. rewrite IH.
  destruct (decide (k ∈ l)) as [Hin|Hin].
  - by rewrite decide_True by by right.
  - rewrite filter_app. destruct (decide (k = x)) as [->|Hne].
    + rewrite decide_True by left.
      rewrite (filter_cons_False _ x) by (intros Hx; by apply Hx).
      by rewrite filter_nil, app_nil_r.
    + rewrite decide_False by (intros [?|?]%elem_of_cons; done).
      by rewrite filter_cons_True by done.
Qed.

Lemma scan_polygon_keys st mp :
  OrderedDict.keys (building_parts (scan_polygon st mp))
  = if horizontal_face (ring0 mp)
    then if decide (xy_of (ring0 mp) ∈ OrderedDict.keys (building_parts st))
         then OrderedDict.keys (building_parts st)
         else OrderedDict.keys (building_parts st) ++ [xy_of (ring0 mp)]
    else OrderedDict.keys (building_parts st).
Proof.
  destruct (horizontal_face (ring0 mp)) eqn:Hh.
  2:{ by rewrite scan_polygon_dropped. }
  destruct (horizontal_face_ring_z _ Hh) as [z [Hz _]].
  rewrite (scan_polygon_kept _ _ z) by (unfold face_z; by rewrite Hh).
  cbn [building_parts]. rewrite OrderedDictFacts.mem_get.
  destruct (OrderedDict.get (xy_of (ring0 mp)) (building_parts st))
    as [zs|] eqn:Hg.
  - rewrite bool_decide_eq_true_2 by eauto.
    rewrite OrderedDictFacts.keys_mutate, decide_True; [done|].
    apply dec_stable. intros Hn. apply OrderedDictFacts.get_None in Hn.
    congruence.
  - rewrite bool_decide_eq_false_2 by (intros [? ?]; done).
    rewrite OrderedDictFacts.keys_set_fresh by done.
    rewrite decide_False; [done|]. by apply OrderedDictFacts.get_None.
Qed.

Lemma scan_keys_first_occurrences z_unit_in polygons :
  OrderedDict.keys (building_parts (scan_rings z_unit_in polygons))
  = first_occurrences (kept_footprints polygons).
Proof.
  induction polygons as [|mp polygons IH] using rev_ind; [done|].
  unfold scan_rings, kept_footprints in *.
  rewrite fold_left_app, filter_app. cbn [fold_left].
  rewrite scan_polygon_keys.
  destruct (horizontal_face (ring0 mp)) eqn:Hh.
  - rewrite (filter_cons_True _ mp) by by rewrite Hh.
    rewrite filter_nil, fmap_app. cbn [fmap list_fmap].
    rewrite first_occurrences_snoc, <-IH.
    destruct (decide (xy_of (ring0 mp)
                      ∈ OrderedDict.keys
                          (building_parts
                             (fold_left scan_polygon polygons
                                {| min_h := initial_min_h z_unit_in;
                                   building_parts := [] |}))))
      as [Hin|Hin].
    + rewrite decide_True; [done|].
      apply (scan_rings_keys z_unit_in) in Hin as (mp' & Hmp' & Hh' & Hk).
      apply list_elem_of_fmap. exists mp'. split; [done|].
      apply list_elem_of_filter. split; [by rewrite Hh' | done].
    + rewrite decide_False; [done|].
      intros (mp' & Hk & [Hh' Hmp']%list_elem_of_filter)%list_elem_of_fmap.
      apply Hin, (scan_rings_keys z_unit_in). exists mp'.
      split; [done|]. split; [by apply Is_true_true | done].
  - rewrite (filter_cons_False _ mp) by (rewrite Hh; intros []).
    by rewrite filter_nil, app_nil_r.
Qed.

(** X8. The new features of a feature come in the order in which their
    footprints first occur among its kept rings: the 'geometry' column of the
    rows is the list of the polygons of these footprints, each once, a later
    ring of a footprint already seen adding no row. *)
Theorem rows_follow_first_occurrences z_unit_in relative_h feature w :
  valid_units z_unit_in →
  ∃ rows,
    split_feature z_unit_in relative_h feature w = (Returned rows, w)
    ∧ column "geometry" rows
      = (λ k, Some (VPolygon k))
        <$> first_occurrences (kept_footprints (geometry feature)).
Proof.
  intros Hu. eexists. split.
  { rewrite split_feature_run. by rewrite bool_decide_eq_true_2 by done. }
  rewrite <-(scan_keys_first_occurrences z_unit_in).
  unfold column, feature_rows, part_rows, OrderedDict.keys.
  rewrite <-!list_fmap_compose.
  apply list_fmap_ext. intros i [k zs] _. simpl. apply new_row_lookup.
Qed.

Lemma rows_follow_first_occurrences_witness :
  ∃ rows,
    split_feature "m" false (two_parts ∅) world0 = (Returned rows, world0)
    ∧ column "geometry" rows
      = (λ k, Some (VPolygon k))
        <$> first_occurrences (kept_footprints (geometry (two_parts ∅))).
Proof.
  apply rows_follow_first_occurrences. left. reflexivity.
Defined.

(** ** What the scan records *)

Lemma values_mutate_snoc (k : XY) (z : num) (d : list (XY * list num)) :
  is_Some (OrderedDict.get k d) →
  concat (OrderedDict.mutate (λ zs, zs ++ [z]) k d).*2 ≡ₚ z :: concat d.*2.
Proof.
  induction d as [|[k' zs] d IH]; simpl; [by intros [? ?]|].
  destruct (decide (k = k')) as [->|Hne]; csimpl; intros Hs.
  - rewrite <-app_assoc. simpl. by rewrite <-Permutation_middle.
  - rewrite IH by done. by rewrite <-Permutation_middle.
Qed.

Lemma set_fresh (k : XY) (v : list num) (d : list (XY * list num)) :
  OrderedDict.get k d = None → OrderedDict.set k v d = d ++ [(k, v)].
Proof.
  induction d as [|[k' zs] d IH]; simpl; [done|].
  destruct (decide (k = k')); [done|]. intros Hg. by rewrite IH.
Qed.

Lemma scan_values polygons st :
  concat (building_parts (fold_left scan_polygon polygons st)).*2
  ≡ₚ concat (building_parts st).*2 ++ omap face_z polygons.
Proof.
  revert st. induction polygons as [|mp polygons IH]; intros st.
  { simpl. by rewrite app_nil_r. }
  cbn [fold_left]. rewrite IH. csimpl.
  destruct (face_z mp) as [z|] eqn:Hz.
  2:{ by rewrite scan_polygon_skip. }
  rewrite (scan_polygon_kept _ _ z) by done. cbn [building_parts].
  rewrite OrderedDictFacts.mem_get. simpl.
  rewrite <-Permutation_middle. case_bool_decide as Hg.
  - by rewrite values_mutate_snoc.
  - rewrite set_fresh by by apply eq_None_not_Some.
    rewrite fmap_app, concat_app. simpl.
    rewrite <-app_assoc. simpl. by rewrite <-Permutation_middle.
Qed.

Lemma omap_face_z_length polygons :
  length (omap face_z polygons)
  = length (filter (λ mp, horizontal_face (ring0 mp)) polygons).
Proof.
  induction polygons as [|mp polygons IH]; [done|]. csimpl.
  destruct (face_z mp) as [z|] eqn:Hz.
  - assert (horizontal_face (ring0 mp) = true) as Hh
      by by apply face_z_spec in Hz as [? _].
    rewrite filter_cons_True by by rewrite Hh. simpl. by rewrite IH.
  - apply face_z_None in Hz.
    by rewrite filter_cons_False by (rewrite Hz; intros []).
Qed.

Lemma length_le_concat (d : list (XY * list num)) :
  Forall (λ item, item.2 ≠ []) d → (length d ≤ length (concat d.*2))%nat.
Proof.
  induction 1 as [|[k zs] d Hzs _ IH]; [done|]. csimpl.
  rewrite length_app. destruct zs; [done|]. simpl in *. lia.
Qed.

(** X9. The scan loses no kept ring and records none twice: the Z values in
    the lists of [building_parts], taken together, are the Z of the kept
    rings, each as often as there are kept rings at it.  So a feature has at
    most as many building parts as kept rings. *)
Theorem every_kept_ring_is_recorded_once z_unit_in polygons :
  concat (building_parts (scan_rings z_unit_in polygons)).*2
  ≡ₚ omap face_z polygons
  ∧ length (concat (building_parts (scan_rings z_unit_in polygons)).*2)
    = length (filter (λ mp, horizontal_face (ring0 mp)) polygons)
  ∧ (length (building_parts (scan_rings z_unit_in polygons))
     ≤ length (filter (λ mp, horizontal_face (ring0 mp)) polygons))%nat.
Proof.
  assert (concat (building_parts (scan_rings z_unit_in polygons)).*2
          ≡ₚ omap face_z polygons) as Hp.
  { unfold scan_rings. by rewrite scan_values. }
  split; [done|]. rewrite <-omap_face_z_length, <-Hp. split; [done|].
  apply length_le_concat, scan_rings_nonempty.
Qed.

(** ** Several features *)

(** X10. The features are converted one by one, each with its own
    [building_parts] and its own running minimum: with the unit 'm' or 'ft',
    the loop over the features of one frame followed by those of another
    ends with the rows of the first followed by the rows of the second, and
    this is the list from which the call on the two builds its frame. *)
Theorem features_are_converted_one_by_one lib source features1 features2
    z_unit_in relative_h save path filename out_format w :
  valid_units z_unit_in →
  ∃ rows1 rows2,
    convert_features z_unit_in relative_h features1 w = (Returned rows1, w)
    ∧ convert_features z_unit_in relative_h features2 w = (Returned rows2, w)
    ∧ convert_features z_unit_in relative_h (features1 ++ features2) w
      = (Returned (rows1 ++ rows2), w)
    ∧ multipatch_convertor lib
        {| gdf_crs := source; gdf_features := features1 ++ features2 |}
        z_unit_in relative_h save path filename out_format w
      = save_or_return lib source (rows1 ++ rows2)
          save path filename out_format w.
Proof.
  intros Hu. eexists _, _. unfold convert_features.
  rewrite !feature_loop_valid by done. cbn [app].
  split; [done|]. split; [done|]. split.
  - by rewrite fmap_app, concat_app.
  - rewrite convertor_pass by by left. unfold all_rows.
    cbn [gdf_crs gdf_features]. by rewrite fmap_app, concat_app.
Qed.

Lemma features_are_converted_one_by_one_witness :
  ∃ rows1 rows2,
    convert_features "m" true [top_bottom_wall ∅] world0
    = (Returned rows1, world0)
    ∧ convert_features "m" true [two_parts ∅] world0
      = (Returned rows2, world0)
    ∧ convert_features "m" true ([top_bottom_wall ∅] ++ [two_parts ∅]) world0
      = (Returned (rows1 ++ rows2), world0)
    ∧ multipatch_convertor stand_in
        {| gdf_crs := Epsg 4326;
           gdf_features := [top_bottom_wall ∅] ++ [two_parts ∅] |}
        "m" true false "./" "output" "geojson" world0
      = save_or_return stand_in (Epsg 4326) (rows1 ++ rows2)
          false "./" "output" "geojson" world0.
Proof.
  apply features_are_converted_one_by_one. left. reflexivity.
Defined.

(** ** The seed of the running minimum *)

(** X11. When no kept ring of a feature lies below the seed, and so when the
    feature has no kept ring at all, the running minimum ends as the seed
    itself, 9000 for 'm' and 30000 for any other unit: in relative mode the
    heights of such a feature are then counted from the seed. *)
Theorem running_min_is_the_seed_above_it z_unit_in feature :
  (∀ mp c, mp ∈ geometry feature → horizontal_face (ring0 mp) = true →
     c ∈ ring0 mp → (initial_min_h z_unit_in ≤ cz c)%Qc) →
  running_min z_unit_in feature = initial_min_h z_unit_in.
Proof.
  intros Habove.
  destruct (running_min_cases z_unit_in feature)
    as [Heq|(mp & Hmp & Hh & Hz)]; [done|].
  assert (∃ c0, c0 ∈ ring0 mp) as [c0 Hc0].
  { pose proof Hh as [Hlen _]%horizontal_face_spec.
    destruct (ring0 mp) as [|c0 r]; [simpl in Hlen; lia | exists c0; left]. }
  apply Qcle_antisym; [apply running_min_le_seed|].
  rewrite <-(Hz c0 Hc0). by apply Habove with mp.
Qed.

Lemma running_min_is_the_seed_above_it_witness :
  running_min "ft" (single_ring ∅ (Qc_of_Z 30000)) = initial_min_h "ft".
Proof.
  apply running_min_is_the_seed_above_it.
  intros mp c [->|Hin]%elem_of_cons Hh Hc; [|inversion Hin].
  assert (cz c = Qc_of_Z 30000) as ->; [|vm_compute; discriminate].
  cbn [ring0 polygon_of flat_ring] in Hc.
  apply list_elem_of_fmap in Hc as [p [-> _]]. reflexivity.
Defined.
